(** * keystone/api/os_federation.py: the /v3/OS-FEDERATION resources

    A shallow embedding of the flask-restful resources of
    [keystone/api/os_federation.py], and the properties of the federation
    surface proved about it.

    Python values are embedded as a small JSON-like datatype, dictionaries as
    insertion-ordered association lists, and handlers as computations in an
    error-and-state monad whose state holds the federation registries and the
    log of calls made to the collaborators of the module. *)

From Stdlib Require Import ZArith.
From stdpp Require Import base option list strings.

Set Warnings "-register-all".

Open Scope Z_scope.
Open Scope string_scope.
Open Scope list_scope.

(** ** Python values *)

(** Insertion-ordered dictionaries (the Python [dict]): an association list
    in which an update of an existing key keeps the key's position and the
    insertion of a new key goes to the end. *)
Module PyDict.
Section ops.
Context {K V : Type} `{EqDecision K}.

Fixpoint get (k : K) (d : list (K * V)) : option V :=
  match d with
  | [] => None
  | (k', v) :: d' => if decide (k = k') then Some v else get k d'
  end.

(** [d[k] = v] *)
Fixpoint set (k : K) (v : V) (d : list (K * V)) : list (K * V) :=
  match d with
  | [] => [(k, v)]
  | (k', v') :: d' =>
      if decide (k = k') then (k', v) :: d' else (k', v') :: set k v d'
  end.

(** [del d[k]] *)
Fixpoint del (k : K) (d : list (K * V)) : list (K * V) :=
  match d with
  | [] => []
  | (k', v') :: d' =>
      if decide (k = k') then del k d' else (k', v') :: del k d'
  end.

Definition keys (d : list (K * V)) : list K := d.*1.
Definition values (d : list (K * V)) : list V := d.*2.

(** [d.setdefault(k, v)], for its effect on [d]. *)
Definition setdefault (k : K) (v : V) (d : list (K * V)) : list (K * V) :=
  match get k d with
  | Some _ => d
  | None => set k v d
  end.

(** A dictionary display [{k1: v1, ..., kn: vn}] or a comprehension over
    the items, evaluated left to right: a later item with an equal key
    overwrites the value of the earlier one. *)
Definition of_items (items : list (K * V)) : list (K * V) :=
  foldl (fun d kv => set kv.1 kv.2 d) [] items.
End ops.
End PyDict.

Inductive value :=
  | VNone
  | VBool (b : bool)
  | VInt (z : Z)
  | VStr (s : string)
  | VList (l : list value)
  | VDict (d : list (string * value)).

(** A dictionary with string keys, as produced from a JSON object. *)
Abbreviation dict := (list (string * value)).

(** Python truth value testing. *)
Definition truthy (v : value) : bool :=
  match v with
  | VNone => false
  | VBool b => b
  | VInt z => negb (Z.eqb z 0)
  | VStr s => negb (String.eqb s "")
  | VList l => match l with [] => false | _ => true end
  | VDict d => match d with [] => false | _ => true end
  end.

(** Truth value of a Python list. *)
Definition list_truthy {A} (l : list A) : bool :=
  match l with [] => false | _ => true end.

(** ** Exceptions *)

Inductive exn :=
  | ForbiddenAction (action : string)
  | NotFound (target : string)
  | Conflict (target : string)
  | ValidationError
  | UserNotFound
  | MetadataFileError (reason : string)
  | IOError (reason : string)
  | KeyError (k : string)
  | TypeError
  | AttributeError
  | OtherError (name : string).

Abbreviation result A := (exn + A)%type.

(** ** Combining two lists of references uniquely *)

(** The hashable Python values, up to the equality a [dict] uses on its
    keys: [True] and [1] (and [False] and [0]) are the same key. *)
Inductive key :=
  | KNone
  | KInt (z : Z)
  | KStr (s : string).

#[global] Instance key_eq_dec : EqDecision key.
Proof. solve_decision. Defined.

(** Hashing a value for use as a dictionary key; lists and dictionaries are
    unhashable. *)
Definition hash_key (v : value) : result key :=
  match v with
  | VNone => inr KNone
  | VBool b => inr (KInt (Z.b2z b))
  | VInt z => inr (KInt z)
  | VStr s => inr (KStr s)
  | VList _ | VDict _ => inl TypeError
  end.

(** [x['id']], as the key of the comprehension. *)
Definition id_key (x : dict) : result key :=
  match PyDict.get "id" x with
  | None => inl (KeyError "id")
  | Some v => hash_key v
  end.

(** [{x['id']: x for x in xs}], started from the dictionary [acc]. *)
Fixpoint dict_by_id (xs : list dict) (acc : list (key * dict))
  : result (list (key * dict)) :=
  match xs with
  | [] => inr acc
  | x :: xs' =>
      match id_key x with
      | inl e => inl e
      | inr k => dict_by_id xs' (PyDict.set k x acc)
      end
  end.

Definition _combine_lists_uniquely (a b : list dict) : result (list dict) :=
  if list_truthy a && list_truthy b then
    match dict_by_id (a ++ b) [] with
    | inl e => inl e
    | inr d => inr (PyDict.values d)
    end
  else
    inr (if list_truthy a then a else b).

(** The vocabulary of the properties of [_combine_lists_uniquely]. *)

#[global] Instance exn_eq_dec : EqDecision exn.
Proof. solve_decision. Defined.

(** The reference [x] carries an ['id'] entry that can serve as a key. *)
Definition carries_id (x : dict) : Prop := exists k, id_key x = inr k.

(** The ids of a list of references, in order and with repetitions. *)
Definition ids (xs : list dict) : list key :=
  omap (fun x => match id_key x with inr k => Some k | inl _ => None end) xs.

(** The last reference of [xs] whose id is [k]. *)
Fixpoint last_by_id (k : key) (xs : list dict) : option dict :=
  match xs with
  | [] => None
  | x :: xs' =>
      match last_by_id k xs' with
      | Some y => Some y
      | None => if decide (id_key x = inr k) then Some x else None
      end
  end.

(** ** Requests, responses and headers *)

(** The ambient flask request: the WSGI environment and the parsed JSON body
    ([request_body_json], which is always a dictionary). *)
Record request := {
  environ : dict;
  request_body_json : dict;
}.

(** [keystone.common.request.Request]: a webob request over a WSGI
    environment. *)
Record webob_request := Request { webob_environ : dict }.

(** A header list, as webob and werkzeug keep it: (name, value) pairs in
    order, a name possibly occurring several times. *)
Abbreviation headers := (list (string * string)).

Record webob_response := {
  webob_body : string;
  webob_status_code : Z;
  webob_headers : headers;
}.

Record flask_response := {
  flask_body : string;
  flask_status_code : Z;
  flask_headers : headers;
}.

(** What a flask-restful handler returns: a body (answered with 200), a
    (body, status) pair, or a ready-made response object. *)
Inductive reply :=
  | Body (v : value)
  | BodyStatus (v : value) (status : Z)
  | Response (r : flask_response).

Module http_client.
Definition OK : Z := 200.
Definition CREATED : Z := 201.
Definition NO_CONTENT : Z := 204.
End http_client.

(** ASCII lower-casing, for the case-insensitive comparison of header
    names. *)
Definition lower_ascii (c : Ascii.ascii) : Ascii.ascii :=
  let n := Ascii.nat_of_ascii c in
  if (Nat.leb 65 n && Nat.leb n 90)%bool then Ascii.ascii_of_nat (n + 32) else c.

Fixpoint lower (s : string) : string :=
  match s with
  | EmptyString => EmptyString
  | String c s' => String (lower_ascii c) (lower s')
  end.

Definition same_header (name : string) (h : string * string) : bool :=
  String.eqb (lower h.1) (lower name).

(** werkzeug [Headers.get_all]. *)
Definition get_all (name : string) (hs : headers) : list string :=
  (List.filter (same_header name) hs).*2.

(** werkzeug [Headers.add]. *)
Definition headers_add (name v : string) (hs : headers) : headers :=
  hs ++ [(name, v)].

(** werkzeug [Headers.__setitem__]: the first header of that name is
    replaced, the later ones are removed; a new name is appended. *)
Fixpoint headers_set (name v : string) (hs : headers) : headers :=
  match hs with
  | [] => [(name, v)]
  | h :: hs' =>
      if same_header name h
      then (name, v) :: List.filter (fun h' => negb (same_header name h')) hs'
      else h :: headers_set name v hs'
  end.

(** [r.setdefault(key, []).append(val)] *)
Definition append_item (r : list (string * list string)) (kv : string * string)
  : list (string * list string) :=
  match PyDict.get kv.1 r with
  | Some vs => PyDict.set kv.1 (vs ++ [kv.2]) r
  | None => PyDict.set kv.1 [kv.2] r
  end.

(** webob [MultiDict.dict_of_lists]: [r.setdefault(key, []).append(val)] for
    each item in order. *)
Definition dict_of_lists (hs : headers) : list (string * list string) :=
  foldl append_item [] hs.

(** werkzeug [Headers.extend] on a dictionary of lists: every value of every
    name is added. *)
Definition headers_extend (d : list (string * list string)) (hs : headers)
  : headers :=
  foldl (fun hs kvs => foldl (fun hs v => headers_add kvs.1 v hs) hs kvs.2) hs d.

(** ** Strings *)

(** [sep.join(parts)] *)
Fixpoint join (sep : string) (parts : list string) : string :=
  match parts with
  | [] => ""
  | [x] => x
  | x :: parts' => x +:+ sep +:+ join sep parts'
  end.

(** The characters of a string, as iterating over it yields them. *)
Fixpoint chars (s : string) : list string :=
  match s with
  | EmptyString => []
  | String c s' => String c EmptyString :: chars s'
  end.

(** ** The state of a request and the effects of a handler *)

Module schema.
Inductive t :=
  | identity_provider_create
  | identity_provider_update
  | protocol_create
  | protocol_update
  | service_provider_create
  | service_provider_update.
End schema.

(** The calls a handler makes to its collaborators, in order. *)
Inductive event :=
  | EvEnforce (action : string)
  | EvValidate (s : schema.t) (doc : value)
  | EvValidateMapping (doc : dict)
  | EvFederation (method : string) (args : list value)
  | EvAssignment (method : string) (arg : value)
  | EvAuthenticate (req : webob_request) (auth : value)
  | EvOpen (path : string).

(** The federation registries behind [PROVIDERS.federation_api]. Protocols
    are keyed by the id of their identity provider and their own id. *)
Record registries := {
  idps : list (string * dict);
  protocols : list ((string * string) * dict);
  mappings : list (string * dict);
  sps : list (string * dict);
}.

Record state := {
  registry : registries;
  log : list event;
}.

(** Handlers run in an error-and-state monad: an exception keeps the state
    reached when it was raised. *)
Definition M (A : Type) : Type := state -> result A * state.

Definition ret {A} (a : A) : M A := fun s => (inr a, s).

Definition raise {A} (e : exn) : M A := fun s => (inl e, s).

Definition bind {A B} (m : M A) (k : A -> M B) : M B :=
  fun s =>
    match m s with
    | (inl e, s') => (inl e, s')
    | (inr a, s') => k a s'
    end.

(** [try: m  except: h] *)
Definition try_except {A} (m : M A) (h : exn -> M A) : M A :=
  fun s =>
    match m s with
    | (inl e, s') => h e s'
    | (inr a, s') => (inr a, s')
    end.

Definition lift {A} (r : result A) : M A := fun s => (r, s).

Definition emit (ev : event) : M unit :=
  fun s => (inr tt, {| registry := registry s; log := log s ++ [ev] |}).

Definition get_registry : M registries := fun s => (inr (registry s), s).

Definition put_registry (r : registries) : M unit :=
  fun s => (inr tt, {| registry := r; log := log s |}).

Notation "'let*' x ':=' m 'in' k" := (bind m (fun x => k))
  (at level 10, x name, m at level 100, k at level 200,
   format "'let*'  x  ':='  m  'in' '//' k").

Notation "m ';;;' k" := (bind m (fun _ => k))
  (at level 100, k at level 200, right associativity,
   format "m  ';;;' '//' k").

(** [for x in xs: f(x)], collecting the results. *)
Fixpoint for_each {A B} (f : A -> M B) (xs : list A) : M (list B) :=
  match xs with
  | [] => ret []
  | x :: xs' =>
      let* y := f x in
      let* ys := for_each f xs' in
      ret (y :: ys)
  end.

(** ** The collaborators of the module

    The sources of the collaborators are not part of the module; what the
    handlers need from them is taken as a parameter. *)
Record Env := {
  (** [rbac_enforcer]: the decision of the policy gate on an action, for the
      ambient request. *)
  policy_allows : string -> request -> bool;
  (** [validation.lazy_validate]: whether a document passes a schema. *)
  schema_accepts : schema.t -> value -> bool;
  (** [utils.validate_mapping_structure]: whether a mapping document is
      structurally valid. *)
  mapping_structure_ok : dict -> bool;
  (** [ks_flask.ResourceBase._normalize_dict], raising on what is not a
      dictionary. *)
  _normalize_dict : value -> result dict;
  (** [ks_flask.ResourceBase.build_driver_hints] and the hints it builds. *)
  Hints : Type;
  build_driver_hints : request -> list string -> Hints;
  hints_match : Hints -> dict -> bool;
  (** [ks_flask.ResourceBase.wrap_collection], by collection name. *)
  wrap_collection : string -> list dict -> option Hints -> dict;
  (** The URL [_add_self_referential_link] computes for a reference of a
      collection. *)
  self_link : string -> dict -> string;
  (** [ks_flask.base_url(path=...)] *)
  base_url : value -> string;
  (** ['/%s' % v] *)
  slash_percent_s : value -> string;
  (** [CONF.saml.relay_state_prefix] and [CONF.saml.idp_metadata_path] *)
  CONF_saml_relay_state_prefix : value;
  CONF_saml_idp_metadata_path : string;
  (** [authorization.AUTH_CONTEXT_ENV] *)
  AUTH_CONTEXT_ENV : string;
  (** [PROVIDERS.assignment_api] *)
  list_projects_for_user : value -> result (list dict);
  list_projects_for_groups : value -> result (list dict);
  list_domains_for_user : value -> result (list dict);
  list_domains_for_groups : value -> result (list dict);
  (** [keystone.federation.controllers.Auth().authenticate_for_token] *)
  authenticate_for_token : webob_request -> value -> result webob_response;
  (** [open(path, 'r').read()] *)
  read_file : string -> result string;
  (** The headers a response made by [flask.make_response] starts with. *)
  make_response_headers : string -> Z -> headers;
}.

(** [d.get(k)] on a Python object: [None] for a missing key. *)
Definition py_get (v : value) (k : string) : result value :=
  match v with
  | VDict d => inr (default VNone (PyDict.get k d))
  | _ => inl AttributeError
  end.

(** [d.get(k, {})] on a dictionary. *)
Definition get_or_empty (d : dict) (k : string) : value :=
  default (VDict []) (PyDict.get k d).

(** [d.update(other)] *)
Definition dict_update (d other : dict) : dict :=
  foldl (fun d kv => PyDict.set kv.1 kv.2 d) d other.

Section collaborators.
Context (E : Env) (req : request).

(** Modelled from the spec: [rbac_enforcer.RBACEnforcer.enforce_call] is not
    among the sources. It is the capability check
    [enforce(action, context) -> allow | forbid]; a forbid raises. *)
Definition enforce_call (action : string) : M unit :=
  emit (EvEnforce action) ;;;
  if policy_allows E action req then ret tt else raise (ForbiddenAction action).

(** Modelled from the spec: [validation.lazy_validate] is not among the
    sources. It is a pass/fail structural check that raises a validation
    error on a fail. *)
Definition lazy_validate (sch : schema.t) (doc : value) : M unit :=
  emit (EvValidate sch doc) ;;;
  if schema_accepts E sch doc then ret tt else raise ValidationError.

(** Modelled from the spec: [utils.validate_mapping_structure] is not among
    the sources. It is the pure structural validator of a mapping document,
    failing with a validation error. *)
Definition validate_mapping_structure (mapping : dict) : M unit :=
  emit (EvValidateMapping mapping) ;;;
  if mapping_structure_ok E mapping then ret tt else raise ValidationError.

(** [flask.make_response(body, status)] *)
Definition make_response (body : string) (status : Z) : flask_response :=
  {| flask_body := body;
     flask_status_code := status;
     flask_headers := make_response_headers E body status |}.

End collaborators.

(** [resp.headers[name] = v] *)
Definition set_header (name v : string) (r : flask_response) : flask_response :=
  {| flask_body := flask_body r;
     flask_status_code := flask_status_code r;
     flask_headers := headers_set name v (flask_headers r) |}.

(** [resp.headers.extend(d)] *)
Definition extend_headers (d : list (string * list string)) (r : flask_response)
  : flask_response :=
  {| flask_body := flask_body r;
     flask_status_code := flask_status_code r;
     flask_headers := headers_extend d (flask_headers r) |}.

(** ** The federation registries *)

Definition with_idps (x : list (string * dict)) (r : registries) : registries :=
  {| idps := x; protocols := protocols r; mappings := mappings r; sps := sps r |}.

Definition with_protocols (x : list ((string * string) * dict)) (r : registries)
  : registries :=
  {| idps := idps r; protocols := x; mappings := mappings r; sps := sps r |}.

Definition with_mappings (x : list (string * dict)) (r : registries) : registries :=
  {| idps := idps r; protocols := protocols r; mappings := x; sps := sps r |}.

Definition with_sps (x : list (string * dict)) (r : registries) : registries :=
  {| idps := idps r; protocols := protocols r; mappings := mappings r; sps := x |}.

(** The remote ids an identity provider reference claims. *)
Definition remote_ids_of (ref : dict) : list string :=
  match PyDict.get "remote_ids" ref with
  | Some (VList l) =>
      omap (fun v => match v with VStr s => Some s | _ => None end) l
  | _ => []
  end.

(** Some remote id of [rids] is claimed by one of the [others]. *)
Definition remote_ids_collide (rids : list string) (others : list (string * dict))
  : bool :=
  bool_decide (Exists (fun r => Exists (fun o => r ∈ remote_ids_of o.2) others) rids).

(** The provider layer [PROVIDERS.federation_api] is not among the sources.
    It is modelled from the spec as the keyed store with
    get/list/create/update/delete per entity type: NotFound on an absent id,
    Conflict on a duplicate id or on colliding [remote_ids], a partial merge
    on update, the protocols of an identity provider deleted with it, and
    the protocols reachable only under an existing identity provider. Every
    call is logged. *)
Module federation_api.
Section api.
Context (E : Env).

(** Modelled from the spec: [PROVIDERS.federation_api.get_idp] is not among
    the sources; [get(id)] of the identity provider registry fails with
    NotFound on an unknown id. *)
Definition get_idp (idp_id : string) : M dict :=
  emit (EvFederation "get_idp" [VStr idp_id]) ;;;
  let* r := get_registry in
  match PyDict.get idp_id (idps r) with
  | Some ref => ret ref
  | None => raise (NotFound idp_id)
  end.

(** Modelled from the spec: [PROVIDERS.federation_api.list_idps] is not
    among the sources; [list(filters)] of the identity provider registry
    applies the filters as predicates, in insertion order. *)
Definition list_idps (hints : Hints E) : M (list dict) :=
  emit (EvFederation "list_idps" []) ;;;
  let* r := get_registry in
  ret (List.filter (hints_match E hints) (PyDict.values (idps r))).

(** Modelled from the spec: [PROVIDERS.federation_api.create_idp] is not
    among the sources; [create(id, fields)] of the identity provider
    registry fails with Conflict if the id exists or if an entry of
    [remote_ids] collides with an existing identity provider; the record
    gets the id. *)
Definition create_idp (idp_id : string) (idp : dict) : M dict :=
  emit (EvFederation "create_idp" [VStr idp_id; VDict idp]) ;;;
  let* r := get_registry in
  if PyDict.get idp_id (idps r) is Some _ then raise (Conflict idp_id)
  else if remote_ids_collide (remote_ids_of idp) (idps r)
  then raise (Conflict "remote_ids")
  else
    let ref := PyDict.set "id" (VStr idp_id) idp in
    put_registry (with_idps (PyDict.set idp_id ref (idps r)) r) ;;;
    ret ref.

(** Modelled from the spec: [PROVIDERS.federation_api.update_idp] is not
    among the sources; [update(id, fields)] of the identity provider
    registry fails with NotFound on an unknown id, re-validates [remote_ids]
    against all other identity providers, and merges the fields. *)
Definition update_idp (idp_id : string) (idp : dict) : M dict :=
  emit (EvFederation "update_idp" [VStr idp_id; VDict idp]) ;;;
  let* r := get_registry in
  match PyDict.get idp_id (idps r) with
  | None => raise (NotFound idp_id)
  | Some old =>
      if remote_ids_collide (remote_ids_of idp) (PyDict.del idp_id (idps r))
      then raise (Conflict "remote_ids")
      else
        let ref := PyDict.set "id" (VStr idp_id) (dict_update old idp) in
        put_registry (with_idps (PyDict.set idp_id ref (idps r)) r) ;;;
        ret ref
  end.

(** Modelled from the spec: [PROVIDERS.federation_api.delete_idp] is not
    among the sources; [delete(id)] of the identity provider registry fails
    with NotFound on an unknown id and removes the record together with the
    protocols scoped to it. *)
Definition delete_idp (idp_id : string) : M unit :=
  emit (EvFederation "delete_idp" [VStr idp_id]) ;;;
  let* r := get_registry in
  match PyDict.get idp_id (idps r) with
  | None => raise (NotFound idp_id)
  | Some _ =>
      put_registry
        (with_idps (PyDict.del idp_id (idps r))
           (with_protocols
              (List.filter (fun kv => negb (String.eqb kv.1.1 idp_id)) (protocols r))
              r))
  end.

(** Modelled from the spec: [PROVIDERS.federation_api.get_protocol] is not
    among the sources; [get(idp_id, protocol_id)] of the protocol registry
    fails with NotFound on an unknown identity provider or protocol. *)
Definition get_protocol (idp_id protocol_id : string) : M dict :=
  emit (EvFederation "get_protocol" [VStr idp_id; VStr protocol_id]) ;;;
  let* r := get_registry in
  match PyDict.get idp_id (idps r), PyDict.get (idp_id, protocol_id) (protocols r) with
  | None, _ => raise (NotFound idp_id)
  | Some _, None => raise (NotFound protocol_id)
  | Some _, Some ref => ret ref
  end.

(** Modelled from the spec: [PROVIDERS.federation_api.list_protocols] is not
    among the sources; [list(idp_id)] of the protocol registry fails with
    NotFound on an unknown identity provider. *)
Definition list_protocols (idp_id : string) : M (list dict) :=
  emit (EvFederation "list_protocols" [VStr idp_id]) ;;;
  let* r := get_registry in
  match PyDict.get idp_id (idps r) with
  | None => raise (NotFound idp_id)
  | Some _ =>
      ret (PyDict.values
             (List.filter (fun kv => String.eqb kv.1.1 idp_id) (protocols r)))
  end.

(** Modelled from the spec: [PROVIDERS.federation_api.create_protocol] is
    not among the sources; [create(idp_id, protocol_id, fields)] of the
    protocol registry fails with NotFound on an unknown identity provider
    and with Conflict if the protocol exists under it; the record gets its
    id and the back-reference [idp_id]. *)
Definition create_protocol (idp_id protocol_id : string) (protocol : dict)
  : M dict :=
  emit (EvFederation "create_protocol"
          [VStr idp_id; VStr protocol_id; VDict protocol]) ;;;
  let* r := get_registry in
  match PyDict.get idp_id (idps r), PyDict.get (idp_id, protocol_id) (protocols r) with
  | None, _ => raise (NotFound idp_id)
  | Some _, Some _ => raise (Conflict protocol_id)
  | Some _, None =>
      let ref :=
        PyDict.set "idp_id" (VStr idp_id)
          (PyDict.set "id" (VStr protocol_id) protocol) in
      put_registry
        (with_protocols (PyDict.set (idp_id, protocol_id) ref (protocols r)) r) ;;;
      ret ref
  end.

(** Modelled from the spec: [PROVIDERS.federation_api.update_protocol] is
    not among the sources; [update(idp_id, protocol_id, fields)] of the
    protocol registry fails with NotFound on an unknown identity provider or
    protocol, and merges the fields. *)
Definition update_protocol (idp_id protocol_id : string) (protocol : dict)
  : M dict :=
  emit (EvFederation "update_protocol"
          [VStr idp_id; VStr protocol_id; VDict protocol]) ;;;
  let* r := get_registry in
  match PyDict.get idp_id (idps r), PyDict.get (idp_id, protocol_id) (protocols r) with
  | None, _ => raise (NotFound idp_id)
  | Some _, None => raise (NotFound protocol_id)
  | Some _, Some old =>
      let ref :=
        PyDict.set "idp_id" (VStr idp_id)
          (PyDict.set "id" (VStr protocol_id) (dict_update old protocol)) in
      put_registry
        (with_protocols (PyDict.set (idp_id, protocol_id) ref (protocols r)) r) ;;;
      ret ref
  end.

(** Modelled from the spec: [PROVIDERS.federation_api.delete_protocol] is
    not among the sources; [delete(idp_id, protocol_id)] of the protocol
    registry fails with NotFound on an unknown identity provider or
    protocol. *)
Definition delete_protocol (idp_id protocol_id : string) : M unit :=
  emit (EvFederation "delete_protocol" [VStr idp_id; VStr protocol_id]) ;;;
  let* r := get_registry in
  match PyDict.get idp_id (idps r), PyDict.get (idp_id, protocol_id) (protocols r) with
  | None, _ => raise (NotFound idp_id)
  | Some _, None => raise (NotFound protocol_id)
  | Some _, Some _ =>
      put_registry
        (with_protocols (PyDict.del (idp_id, protocol_id) (protocols r)) r)
  end.

(** Modelled from the spec: [PROVIDERS.federation_api.get_mapping] is not
    among the sources; [get(id)] of the mapping registry fails with NotFound
    on an unknown id. *)
Definition get_mapping (mapping_id : string) : M dict :=
  emit (EvFederation "get_mapping" [VStr mapping_id]) ;;;
  let* r := get_registry in
  match PyDict.get mapping_id (mappings r) with
  | Some ref => ret ref
  | None => raise (NotFound mapping_id)
  end.

(** Modelled from the spec: [PROVIDERS.federation_api.list_mappings] is not
    among the sources; [list()] of the mapping registry, in insertion order. *)
Definition list_mappings : M (list dict) :=
  emit (EvFederation "list_mappings" []) ;;;
  let* r := get_registry in
  ret (PyDict.values (mappings r)).

(** Modelled from the spec: [PROVIDERS.federation_api.create_mapping] is not
    among the sources; [create(id, fields)] of the mapping registry fails
    with Conflict on a duplicate id; the record gets the id. *)
Definition create_mapping (mapping_id : string) (mapping : dict) : M dict :=
  emit (EvFederation "create_mapping" [VStr mapping_id; VDict mapping]) ;;;
  let* r := get_registry in
  if PyDict.get mapping_id (mappings r) is Some _ then raise (Conflict mapping_id)
  else
    let ref := PyDict.set "id" (VStr mapping_id) mapping in
    put_registry (with_mappings (PyDict.set mapping_id ref (mappings r)) r) ;;;
    ret ref.

(** Modelled from the spec: [PROVIDERS.federation_api.update_mapping] is not
    among the sources; [update(id, fields)] of the mapping registry fails
    with NotFound on an unknown id, and merges the fields. *)
Definition update_mapping (mapping_id : string) (mapping : dict) : M dict :=
  emit (EvFederation "update_mapping" [VStr mapping_id; VDict mapping]) ;;;
  let* r := get_registry in
  match PyDict.get mapping_id (mappings r) with
  | None => raise (NotFound mapping_id)
  | Some old =>
      let ref := PyDict.set "id" (VStr mapping_id) (dict_update old mapping) in
      put_registry (with_mappings (PyDict.set mapping_id ref (mappings r)) r) ;;;
      ret ref
  end.

(** Modelled from the spec: [PROVIDERS.federation_api.delete_mapping] is not
    among the sources; [delete(id)] of the mapping registry fails with
    NotFound on an unknown id; the removal is unconditional. *)
Definition delete_mapping (mapping_id : string) : M unit :=
  emit (EvFederation "delete_mapping" [VStr mapping_id]) ;;;
  let* r := get_registry in
  match PyDict.get mapping_id (mappings r) with
  | None => raise (NotFound mapping_id)
  | Some _ => put_registry (with_mappings (PyDict.del mapping_id (mappings r)) r)
  end.

(** Modelled from the spec: [PROVIDERS.federation_api.get_sp] is not among
    the sources; [get(id)] of the service provider registry fails with
    NotFound on an unknown id. *)
Definition get_sp (sp_id : string) : M dict :=
  emit (EvFederation "get_sp" [VStr sp_id]) ;;;
  let* r := get_registry in
  match PyDict.get sp_id (sps r) with
  | Some ref => ret ref
  | None => raise (NotFound sp_id)
  end.

(** Modelled from the spec: [PROVIDERS.federation_api.list_sps] is not among
    the sources; [list(filters)] of the service provider registry applies
    the filters as predicates, in insertion order. *)
Definition list_sps (hints : Hints E) : M (list dict) :=
  emit (EvFederation "list_sps" []) ;;;
  let* r := get_registry in
  ret (List.filter (hints_match E hints) (PyDict.values (sps r))).

(** Modelled from the spec: [PROVIDERS.federation_api.create_sp] is not
    among the sources; [create(id, fields)] of the service provider registry
    fails with Conflict on a duplicate id; the record gets the id. *)
Definition create_sp (sp_id : string) (sp : dict) : M dict :=
  emit (EvFederation "create_sp" [VStr sp_id; VDict sp]) ;;;
  let* r := get_registry in
  if PyDict.get sp_id (sps r) is Some _ then raise (Conflict sp_id)
  else
    let ref := PyDict.set "id" (VStr sp_id) sp in
    put_registry (with_sps (PyDict.set sp_id ref (sps r)) r) ;;;
    ret ref.

(** Modelled from the spec: [PROVIDERS.federation_api.update_sp] is not
    among the sources; [update(id, fields)] of the service provider registry
    fails with NotFound on an unknown id, and merges the fields. *)
Definition update_sp (sp_id : string) (sp : dict) : M dict :=
  emit (EvFederation "update_sp" [VStr sp_id; VDict sp]) ;;;
  let* r := get_registry in
  match PyDict.get sp_id (sps r) with
  | None => raise (NotFound sp_id)
  | Some old =>
      let ref := PyDict.set "id" (VStr sp_id) (dict_update old sp) in
      put_registry (with_sps (PyDict.set sp_id ref (sps r)) r) ;;;
      ret ref
  end.

(** Modelled from the spec: [PROVIDERS.federation_api.delete_sp] is not
    among the sources; [delete(id)] of the service provider registry fails
    with NotFound on an unknown id. *)
Definition delete_sp (sp_id : string) : M unit :=
  emit (EvFederation "delete_sp" [VStr sp_id]) ;;;
  let* r := get_registry in
  match PyDict.get sp_id (sps r) with
  | None => raise (NotFound sp_id)
  | Some _ => put_registry (with_sps (PyDict.del sp_id (sps r)) r)
  end.

End api.
End federation_api.

(** ** Resource classes *)

(** The class attributes and the overridable method of a resource class
    derived from [_ResourceBase]. *)
Record resource_class := {
  collection_key : string;
  member_key : string;
  api_prefix : string;
  _public_parameters : list string;
  _id_path_param_name_override : option string;
  _add_related_links : dict -> result dict;
}.

Section resource_base.
Context (E : Env).

(** Modelled from the spec: [ks_flask.ResourceBase._add_self_referential_link]
    is not among the sources. Every returned representation gains its
    derived links: the reference gets under ['links'] a dictionary holding
    its own URL under ['self']. *)
Definition _add_self_referential_link (cls : resource_class) (ref : dict) : dict :=
  PyDict.set "links" (VDict [("self", VStr (self_link E (collection_key cls) ref))]) ref.

(** Modelled from the spec: [ks_flask.ResourceBase.filter_params] is not among
    the sources. A class that declares [_public_parameters] exposes only
    these entries of a reference; a class that declares none exposes all. *)
Definition filter_params (cls : resource_class) (ref : dict) : dict :=
  match _public_parameters cls with
  | [] => ref
  | public => List.filter (fun kv => bool_decide (kv.1 ∈ public)) ref
  end.

(** [_ResourceBase.wrap_member], with the default [collection_name] and
    [member_name]. *)
Definition wrap_member (cls : resource_class) (ref : dict) : M dict :=
  let ref := _add_self_referential_link cls ref in
  let* ref := lift (_add_related_links cls ref) in
  ret [(member_key cls, VDict (filter_params cls ref))].

(** [for r in collection[cls.collection_key]: cls._add_related_links(r)],
    which updates the references of the collection in place. *)
Definition relate_collection (cls : resource_class) (collection : dict) : M dict :=
  match PyDict.get (collection_key cls) collection with
  | None => raise (KeyError (collection_key cls))
  | Some (VList rs) =>
      let* rs' :=
        for_each (fun r =>
                    match r with
                    | VDict d =>
                        let* d' := lift (_add_related_links cls d) in
                        ret (VDict d')
                    | _ => raise TypeError
                    end) rs in
      ret (PyDict.set (collection_key cls) (VList rs') collection)
  | Some _ => raise TypeError
  end.

(** A document handed to the provider layer has to be a dictionary. *)
Definition as_dict (v : value) : M dict :=
  match v with
  | VDict d => ret d
  | _ => raise TypeError
  end.

End resource_base.

Module _ResourceBase.
(** [_ResourceBase._add_related_links]: do nothing. *)
Definition _add_related_links (ref : dict) : result dict := inr ref.
End _ResourceBase.

Module IdentityProvidersResource.
Section resource.
Context (E : Env) (req : request).

Definition _add_related_links (ref : dict) : result dict :=
  match PyDict.get "links" ref with
  | None => inl (KeyError "links")
  | Some links =>
      match py_get links "self", links with
      | inl e, _ => inl e
      | inr _, (VNone | VBool _ | VInt _ | VStr _ | VList _) => inl AttributeError
      | inr base_path, VDict ls =>
          let base_path' :=
            match base_path with
            | VNone =>
                match PyDict.get "id" ref with
                | None => inl (KeyError "id")
                | Some i =>
                    inr (VStr (join "/" (chars (base_url E (VStr (slash_percent_s E i))))))
                end
            | _ => inr base_path
            end in
          match base_path' with
          | inl e => inl e
          | inr (VStr bp) =>
              inr (PyDict.set "links"
                     (VDict (PyDict.set "protocols" (VStr (join "/" [bp; "protocols"])) ls))
                     ref)
          | inr _ => inl TypeError
          end
      end
  end.

Definition cls : resource_class :=
  Build_resource_class
    (* collection_key *) "identity_providers"
    (* member_key *) "identity_provider"
    (* api_prefix *) "/OS-FEDERATION"
    (* _public_parameters *)
    ["id"; "enabled"; "description"; "remote_ids"; "links"; "domain_id"]
    (* _id_path_param_name_override *) (Some "idp_id")
    _add_related_links.

Definition _get_idp (idp_id : string) : M reply :=
  enforce_call E req "identity:get_identity_provider" ;;;
  let* ref := federation_api.get_idp idp_id in
  let* member := wrap_member E cls ref in
  ret (Body (VDict member)).

Definition _list_idps : M reply :=
  let filters := ["id"; "enabled"] in
  enforce_call E req "identity:list_identity_providers" ;;;
  let hints := build_driver_hints E req filters in
  let* refs := federation_api.list_idps E hints in
  let refs := List.map (filter_params cls) refs in
  let collection := wrap_collection E (collection_key cls) refs (Some hints) in
  let* collection := relate_collection cls collection in
  ret (Body (VDict collection)).

Definition get (idp_id : option string) : M reply :=
  match idp_id with
  | Some idp_id => _get_idp idp_id
  | None => _list_idps
  end.

Definition put (idp_id : string) : M reply :=
  enforce_call E req "identity:create_identity_provider" ;;;
  let idp := get_or_empty (request_body_json req) "identity_provider" in
  lazy_validate E schema.identity_provider_create idp ;;;
  let* idp := lift (_normalize_dict E idp) in
  let idp := PyDict.setdefault "enabled" (VBool false) idp in
  let* idp_ref := federation_api.create_idp idp_id idp in
  let* member := wrap_member E cls idp_ref in
  ret (BodyStatus (VDict member) http_client.CREATED).

Definition patch (idp_id : string) : M reply :=
  enforce_call E req "identity:update_identity_provider" ;;;
  let idp := get_or_empty (request_body_json req) "identity_provider" in
  lazy_validate E schema.identity_provider_update idp ;;;
  let* idp := lift (_normalize_dict E idp) in
  let* idp_ref := federation_api.update_idp idp_id idp in
  let* member := wrap_member E cls idp_ref in
  ret (Body (VDict member)).

Definition delete (idp_id : string) : M reply :=
  enforce_call E req "identity:delete_identity_provider" ;;;
  federation_api.delete_idp idp_id ;;;
  ret (BodyStatus VNone http_client.NO_CONTENT).

End resource.
End IdentityProvidersResource.

Module IdentityProvidersProtocolsResource.
Section resource.
Context (E : Env) (req : request).

Definition _add_related_links (ref : dict) : result dict :=
  let ref := PyDict.setdefault "links" (VDict []) ref in
  match PyDict.get "idp_id" ref with
  | None => inl (KeyError "idp_id")
  | Some idp_id =>
      match PyDict.get "links" ref with
      | Some (VDict ls) =>
          inr (PyDict.set "links"
                 (VDict (PyDict.set "identity_provider" (VStr (base_url E idp_id)) ls))
                 ref)
      | _ => inl TypeError
      end
  end.

Definition cls : resource_class :=
  Build_resource_class
    (* collection_key *) "protocols"
    (* member_key *) "protocol"
    (* api_prefix *) "/OS-FEDERATION/identity_providers/<string:idp_id>"
    (* _public_parameters *) ["id"; "mapping_id"; "links"]
    (* _id_path_param_name_override *) None
    _add_related_links.

Definition _get_protocol (idp_id protocol_id : string) : M reply :=
  enforce_call E req "identity:get_protocol" ;;;
  let* ref := federation_api.get_protocol idp_id protocol_id in
  let* member := wrap_member E cls ref in
  ret (Body (VDict member)).

Definition _list_protocols (idp_id : string) : M reply :=
  enforce_call E req "identity:list_protocols" ;;;
  let* protocol_refs := federation_api.list_protocols idp_id in
  let protocols := protocol_refs in
  let collection := wrap_collection E (collection_key cls) protocols None in
  let* collection := relate_collection cls collection in
  ret (Body (VDict collection)).

Definition get (idp_id : string) (protocol_id : option string) : M reply :=
  match protocol_id with
  | Some protocol_id => _get_protocol idp_id protocol_id
  | None => _list_protocols idp_id
  end.

Definition put (idp_id protocol_id : string) : M reply :=
  enforce_call E req "identity:create_protocol" ;;;
  let protocol := get_or_empty (request_body_json req) "protocol" in
  lazy_validate E schema.protocol_create protocol ;;;
  let* protocol := lift (_normalize_dict E protocol) in
  let* ref := federation_api.create_protocol idp_id protocol_id protocol in
  let* member := wrap_member E cls ref in
  ret (BodyStatus (VDict member) http_client.CREATED).

Definition patch (idp_id protocol_id : string) : M reply :=
  enforce_call E req "identity:update_protocol" ;;;
  let protocol := get_or_empty (request_body_json req) "protocol" in
  lazy_validate E schema.protocol_update protocol ;;;
  let* protocol := as_dict protocol in
  let* ref := federation_api.update_protocol idp_id protocol_id protocol in
  let* member := wrap_member E cls ref in
  ret (Body (VDict member)).

Definition delete (idp_id protocol_id : string) : M reply :=
  enforce_call E req "identity:delete_protocol" ;;;
  federation_api.delete_protocol idp_id protocol_id ;;;
  ret (BodyStatus VNone http_client.NO_CONTENT).

End resource.
End IdentityProvidersProtocolsResource.

Module MappingResource.
Section resource.
Context (E : Env) (req : request).

Definition cls : resource_class :=
  Build_resource_class
    (* collection_key *) "mappings"
    (* member_key *) "mapping"
    (* api_prefix *) "/OS-FEDERATION"
    (* _public_parameters *) []
    (* _id_path_param_name_override *) None
    _ResourceBase._add_related_links.

Definition _get_mapping (mapping_id : string) : M reply :=
  enforce_call E req "identity:get_mapping" ;;;
  let* ref := federation_api.get_mapping mapping_id in
  let* member := wrap_member E cls ref in
  ret (Body (VDict member)).

Definition _list_mappings : M reply :=
  enforce_call E req "identity:list_mappings" ;;;
  let* refs := federation_api.list_mappings in
  ret (Body (VDict (wrap_collection E (collection_key cls) refs None))).

Definition get (mapping_id : option string) : M reply :=
  match mapping_id with
  | Some mapping_id => _get_mapping mapping_id
  | None => _list_mappings
  end.

Definition put (mapping_id : string) : M reply :=
  enforce_call E req "identity:create_mapping" ;;;
  let mapping := get_or_empty (request_body_json req) "mapping" in
  let* mapping := lift (_normalize_dict E mapping) in
  validate_mapping_structure E mapping ;;;
  let* mapping_ref := federation_api.create_mapping mapping_id mapping in
  let* member := wrap_member E cls mapping_ref in
  ret (BodyStatus (VDict member) http_client.CREATED).

Definition patch (mapping_id : string) : M reply :=
  enforce_call E req "identity:update_mapping" ;;;
  let mapping := get_or_empty (request_body_json req) "mapping" in
  let* mapping := lift (_normalize_dict E mapping) in
  validate_mapping_structure E mapping ;;;
  let* mapping_ref := federation_api.update_mapping mapping_id mapping in
  let* member := wrap_member E cls mapping_ref in
  ret (Body (VDict member)).

Definition delete (mapping_id : string) : M reply :=
  enforce_call E req "identity:delete_mapping" ;;;
  federation_api.delete_mapping mapping_id ;;;
  ret (BodyStatus VNone http_client.NO_CONTENT).

End resource.
End MappingResource.

Module ServiceProvidersResource.
Section resource.
Context (E : Env) (req : request).

Definition cls : resource_class :=
  Build_resource_class
    (* collection_key *) "service_providers"
    (* member_key *) "service_provider"
    (* api_prefix *) "/OS-FEDERATION"
    (* _public_parameters *)
    ["auth_url"; "id"; "enabled"; "description"; "links"; "relay_state_prefix";
     "sp_url"]
    (* _id_path_param_name_override *) (Some "sp_id")
    _ResourceBase._add_related_links.

Definition _get_service_provider (sp_id : string) : M reply :=
  enforce_call E req "identity:get_service_provider" ;;;
  let* ref := federation_api.get_sp sp_id in
  let* member := wrap_member E cls ref in
  ret (Body (VDict member)).

Definition _list_service_providers : M reply :=
  let filters := ["id"; "enabled"] in
  enforce_call E req "identity:list_service_providers" ;;;
  let hints := build_driver_hints E req filters in
  let* sps := federation_api.list_sps E hints in
  let refs := List.map (filter_params cls) sps in
  ret (Body (VDict (wrap_collection E (collection_key cls) refs (Some hints)))).

Definition get (sp_id : option string) : M reply :=
  match sp_id with
  | Some sp_id => _get_service_provider sp_id
  | None => _list_service_providers
  end.

Definition put (sp_id : string) : M reply :=
  enforce_call E req "identity:create_service_provider" ;;;
  let sp := get_or_empty (request_body_json req) "service_provider" in
  lazy_validate E schema.service_provider_create sp ;;;
  let* sp := lift (_normalize_dict E sp) in
  let sp := PyDict.setdefault "enabled" (VBool false) sp in
  let sp := PyDict.setdefault "relay_state_prefix" (CONF_saml_relay_state_prefix E) sp in
  let* sp_ref := federation_api.create_sp sp_id sp in
  let* member := wrap_member E cls sp_ref in
  ret (BodyStatus (VDict member) http_client.CREATED).

Definition patch (sp_id : string) : M reply :=
  enforce_call E req "identity:update_service_provider" ;;;
  let sp := get_or_empty (request_body_json req) "service_provider" in
  lazy_validate E schema.service_provider_update sp ;;;
  let* sp := lift (_normalize_dict E sp) in
  let* sp_ref := federation_api.update_sp sp_id sp in
  let* member := wrap_member E cls sp_ref in
  ret (Body (VDict member)).

Definition delete (sp_id : string) : M reply :=
  enforce_call E req "identity:delete_service_provider" ;;;
  federation_api.delete_sp sp_id ;;;
  ret (BodyStatus VNone http_client.NO_CONTENT).

End resource.
End ServiceProvidersResource.

(** A call to [PROVIDERS.assignment_api]. *)
Definition assignment_call (method : string) (f : value -> result (list dict))
    (arg : value) : M (list dict) :=
  emit (EvAssignment method arg) ;;;
  lift (f arg).

Module OSFederationProjectResource.
Section resource.
Context (E : Env) (req : request).

Definition get : M reply :=
  enforce_call E req "identity:get_auth_projects" ;;;
  let auth_context := default VNone (PyDict.get (AUTH_CONTEXT_ENV E) (environ req)) in
  let* user_id := lift (py_get auth_context "user_id") in
  let* group_ids := lift (py_get auth_context "group_ids") in
  let* user_refs :=
    if truthy user_id then
      try_except
        (assignment_call "list_projects_for_user" (list_projects_for_user E) user_id)
        (fun e => match e with
                  | UserNotFound => ret []
                  | _ => raise e
                  end)
    else ret [] in
  let* group_refs :=
    if truthy group_ids then
      assignment_call "list_projects_for_groups" (list_projects_for_groups E) group_ids
    else ret [] in
  let* refs := lift (_combine_lists_uniquely user_refs group_refs) in
  ret (Body (VDict (wrap_collection E "projects" refs None))).

End resource.
End OSFederationProjectResource.

Module OSFederationDomainResource.
Section resource.
Context (E : Env) (req : request).

Definition get : M reply :=
  enforce_call E req "identity:get_auth_domains" ;;;
  let auth_context := default VNone (PyDict.get (AUTH_CONTEXT_ENV E) (environ req)) in
  let* user_id := lift (py_get auth_context "user_id") in
  let* group_ids := lift (py_get auth_context "group_ids") in
  let* user_refs :=
    if truthy user_id then
      try_except
        (assignment_call "list_domains_for_user" (list_domains_for_user E) user_id)
        (fun e => match e with
                  | UserNotFound => ret []
                  | _ => raise e
                  end)
    else ret [] in
  let* group_refs :=
    if truthy group_ids then
      assignment_call "list_domains_for_groups" (list_domains_for_groups E) group_ids
    else ret [] in
  let* refs := lift (_combine_lists_uniquely user_refs group_refs) in
  ret (Body (VDict (wrap_collection E "domains" refs None))).

End resource.
End OSFederationDomainResource.

Module SAML2MetadataResource.
Section resource.
Context (E : Env) (req : request).

(** Unenforced: the handler does not consult the policy gate. *)
Definition get : M reply :=
  let metadata_path := CONF_saml_idp_metadata_path E in
  let* metadata :=
    try_except
      (emit (EvOpen metadata_path) ;;; lift (read_file E metadata_path))
      (fun e => match e with
                | IOError reason => raise (MetadataFileError reason)
                | _ => raise e
                end) in
  let resp := make_response E metadata http_client.OK in
  let resp := set_header "Content-Type" "text/xml" resp in
  ret (Response resp).

End resource.
End SAML2MetadataResource.

Module OSFederationAuthResource.
Section resource.
Context (E : Env) (req : request).

Definition _construct_webob_request : webob_request :=
  Request (environ req).

(** The [auth] dictionary display of [_auth]. *)
Definition auth_payload (idp_id protocol_id : string) : value :=
  VDict (PyDict.of_items
    [("identity",
      VDict (PyDict.of_items
        [("methods", VList [VStr protocol_id]);
         (protocol_id,
          VDict (PyDict.of_items
            [("identity_provider", VStr idp_id);
             ("protocol", VStr protocol_id)]))]))]).

Definition _auth (idp_id protocol_id : string) : M reply :=
  let auth := auth_payload idp_id protocol_id in
  let* webob_resp :=
    (emit (EvAuthenticate _construct_webob_request auth) ;;;
     lift (authenticate_for_token E _construct_webob_request auth)) in
  let flask_resp :=
    make_response E (webob_body webob_resp) (webob_status_code webob_resp) in
  let flask_resp :=
    extend_headers (dict_of_lists (webob_headers webob_resp)) flask_resp in
  ret (Response flask_resp).

(** Unenforced: the handler does not consult the policy gate. *)
Definition get (idp_id protocol_id : string) : M reply :=
  _auth idp_id protocol_id.

(** Unenforced: the handler does not consult the policy gate. *)
Definition post (idp_id protocol_id : string) : M reply :=
  _auth idp_id protocol_id.

End resource.
End OSFederationAuthResource.

(** ** Vocabulary of the properties of the authentication bridge *)

(** The generic auth payload as the specification writes it, an object with
    the two members ['methods'] and [<protocol_id>]:
    [{identity: {methods: [protocol_id],
                 <protocol_id>: {identity_provider: idp_id,
                                 protocol: protocol_id}}}]. *)
Definition generic_auth_payload (idp_id protocol_id : string) : value :=
  VDict
    [("identity",
      VDict
        [("methods", VList [VStr protocol_id]);
         (protocol_id,
          VDict [("identity_provider", VStr idp_id);
                 ("protocol", VStr protocol_id)])])].



(** ** A concrete deployment, for the examples *)

Module Demo.

(** Requests that carry [is_admin] pass the policy gate; the documents are
    normalised without renaming; user [alice] and group [devs] have
    assignments, no other user is known to the assignment backend. *)
Definition env : Env :=
  {| policy_allows := fun _ req =>
       truthy (default VNone (PyDict.get "is_admin" (environ req)));
     schema_accepts := fun _ doc =>
       match doc with VDict _ => true | _ => false end;
     mapping_structure_ok := fun d =>
       match PyDict.get "rules" d with Some (VList (_ :: _)) => true | _ => false end;
     _normalize_dict := fun v =>
       match v with VDict d => inr d | _ => inl AttributeError end;
     Hints := unit;
     build_driver_hints := fun _ _ => tt;
     hints_match := fun _ _ => true;
     wrap_collection := fun name refs _ => [(name, VList (List.map VDict refs))];
     self_link := fun collection _ => "http://keystone/v3/OS-FEDERATION/" +:+ collection;
     base_url := fun v =>
       match v with VStr s => "http://keystone/v3/" +:+ s | _ => "http://keystone/v3/" end;
     slash_percent_s := fun v => match v with VStr s => "/" +:+ s | _ => "/" end;
     CONF_saml_relay_state_prefix := VStr "ss:mem:";
     CONF_saml_idp_metadata_path := "/etc/keystone/saml2_idp_metadata.xml";
     AUTH_CONTEXT_ENV := "KEYSTONE_AUTH_CONTEXT";
     list_projects_for_user := fun uid =>
       match uid with
       | VStr "alice" => inr [[("id", VStr "p1")]]
       | VStr "mallory" => inl (OtherError "Unauthorized")
       | _ => inl UserNotFound
       end;
     list_projects_for_groups := fun gids =>
       match gids with
       | VList [VStr "devs"] => inr [[("id", VStr "p2")]]
       | VList [VStr "ghosts"] => inl UserNotFound
       | _ => inl (NotFound "group")
       end;
     list_domains_for_user := fun uid =>
       match uid with
       | VStr "alice" => inr [[("id", VStr "d1")]]
       | VStr "mallory" => inl (OtherError "Unauthorized")
       | _ => inl UserNotFound
       end;
     list_domains_for_groups := fun gids =>
       match gids with
       | VList [VStr "devs"] => inr [[("id", VStr "d2")]]
       | VList [VStr "ghosts"] => inl UserNotFound
       | _ => inl (NotFound "group")
       end;
     authenticate_for_token := fun _ _ =>
       inr {| webob_body := "{token}";
              webob_status_code := 201;
              webob_headers :=
                [("X-Subject-Token", "abc"); ("Content-Type", "application/json");
                 ("Vary", "X-Auth-Token")] |};
     read_file := fun path =>
       if String.eqb path "/etc/keystone/saml2_idp_metadata.xml"
       then inr "<EntityDescriptor/>"
       else inl (IOError "No such file or directory");
     make_response_headers := fun _ _ =>
       [("Content-Type", "text/html; charset=utf-8")] |}.

(** The same deployment with another configured metadata path. *)
Definition env_with_metadata_path (path : string) : Env :=
  {| policy_allows := policy_allows env;
     schema_accepts := schema_accepts env;
     mapping_structure_ok := mapping_structure_ok env;
     _normalize_dict := _normalize_dict env;
     Hints := Hints env;
     build_driver_hints := build_driver_hints env;
     hints_match := hints_match env;
     wrap_collection := wrap_collection env;
     self_link := self_link env;
     base_url := base_url env;
     slash_percent_s := slash_percent_s env;
     CONF_saml_relay_state_prefix := CONF_saml_relay_state_prefix env;
     CONF_saml_idp_metadata_path := path;
     AUTH_CONTEXT_ENV := AUTH_CONTEXT_ENV env;
     list_projects_for_user := list_projects_for_user env;
     list_projects_for_groups := list_projects_for_groups env;
     list_domains_for_user := list_domains_for_user env;
     list_domains_for_groups := list_domains_for_groups env;
     authenticate_for_token := authenticate_for_token env;
     read_file := read_file env;
     make_response_headers := make_response_headers env |}.

(** A request from an administrator, with a JSON body and the principal of
    the auth context. *)
Definition admin_request (body : dict) (auth_context : dict) : request :=
  {| environ := [("is_admin", VBool true);
                 ("KEYSTONE_AUTH_CONTEXT", VDict auth_context)];
     request_body_json := body |}.

(** A request that the policy gate forbids. *)
Definition anonymous_request (body : dict) : request :=
  {| environ := []; request_body_json := body |}.

Definition empty_registries : registries :=
  {| idps := []; protocols := []; mappings := []; sps := [] |}.

Definition fresh : state := {| registry := empty_registries; log := [] |}.

End Demo.

(** ** Vocabulary of the properties of the aggregation *)

(** The outcome [out] of an aggregation over a user lookup and a group
    lookup suppresses the [UserNotFound] of the user lookup and nothing else:
    - a [UserNotFound] raised by the user lookup counts as an empty
      user-derived set, so that the outcome is that of the group lookup;
    - any other error raised by the user lookup is the outcome;
    - any error raised by the group lookup, [UserNotFound] included, is the
      outcome whenever the user lookup was skipped, returned, or raised
      [UserNotFound]. *)
Definition suppresses_only_user_not_found
    (out : result reply) (user_id group_ids : value)
    (user_lookup group_lookup : value -> result (list dict))
    (wrap : list dict -> reply) : Prop :=
  (truthy user_id = true ->
   user_lookup user_id = inl UserNotFound ->
   out = match (if truthy group_ids then group_lookup group_ids else inr []) with
         | inl e => inl e
         | inr group_refs => inr (wrap group_refs)
         end) /\
  (forall e,
     truthy user_id = true ->
     user_lookup user_id = inl e ->
     e <> UserNotFound ->
     out = inl e) /\
  (forall e,
     truthy group_ids = true ->
     group_lookup group_ids = inl e ->
     truthy user_id = false \/
     user_lookup user_id = inl UserNotFound \/
     (exists refs, user_lookup user_id = inr refs) ->
     out = inl e).

(** ** Vocabulary of the properties of the writes to the registries *)

(** Among the events [new] of a run, every call of the provider's [method]
    on a mapping comes after a run of the mapping validator on the very
    document that is written. *)
Definition validated_before (method mapping_id : string) (new : list event) : Prop :=
  forall pre args post,
    new = pre ++ EvFederation method args :: post ->
    exists d, args = [VStr mapping_id; VDict d] /\ EvValidateMapping d ∈ pre.

(** Among the events [new] of a run there is no call of the provider
    layer. *)
Definition calls_no_provider (new : list event) : Prop :=
  forall method args, EvFederation method args ∉ new.

(** ** The operations of the federation surface *)

(** The operations the APIs of the module route to their resources. *)
Inductive operation :=
  | get_identity_provider (idp_id : string)
  | list_identity_providers
  | create_identity_provider (idp_id : string)
  | update_identity_provider (idp_id : string)
  | delete_identity_provider (idp_id : string)
  | get_protocol (idp_id protocol_id : string)
  | list_protocols (idp_id : string)
  | create_protocol (idp_id protocol_id : string)
  | update_protocol (idp_id protocol_id : string)
  | delete_protocol (idp_id protocol_id : string)
  | get_mapping (mapping_id : string)
  | list_mappings
  | create_mapping (mapping_id : string)
  | update_mapping (mapping_id : string)
  | delete_mapping (mapping_id : string)
  | get_service_provider (sp_id : string)
  | list_service_providers
  | create_service_provider (sp_id : string)
  | update_service_provider (sp_id : string)
  | delete_service_provider (sp_id : string)
  | get_auth_projects
  | get_auth_domains
  | get_saml2_metadata
  | get_federated_auth (idp_id protocol_id : string)
  | post_federated_auth (idp_id protocol_id : string).

Definition handle (E : Env) (req : request) (op : operation) : M reply :=
  match op with
  | get_identity_provider idp_id => IdentityProvidersResource.get E req (Some idp_id)
  | list_identity_providers => IdentityProvidersResource.get E req None
  | create_identity_provider idp_id => IdentityProvidersResource.put E req idp_id
  | update_identity_provider idp_id => IdentityProvidersResource.patch E req idp_id
  | delete_identity_provider idp_id => IdentityProvidersResource.delete E req idp_id
  | get_protocol idp_id protocol_id =>
      IdentityProvidersProtocolsResource.get E req idp_id (Some protocol_id)
  | list_protocols idp_id => IdentityProvidersProtocolsResource.get E req idp_id None
  | create_protocol idp_id protocol_id =>
      IdentityProvidersProtocolsResource.put E req idp_id protocol_id
  | update_protocol idp_id protocol_id =>
      IdentityProvidersProtocolsResource.patch E req idp_id protocol_id
  | delete_protocol idp_id protocol_id =>
      IdentityProvidersProtocolsResource.delete E req idp_id protocol_id
  | get_mapping mapping_id => MappingResource.get E req (Some mapping_id)
  | list_mappings => MappingResource.get E req None
  | create_mapping mapping_id => MappingResource.put E req mapping_id
  | update_mapping mapping_id => MappingResource.patch E req mapping_id
  | delete_mapping mapping_id => MappingResource.delete E req mapping_id
  | get_service_provider sp_id => ServiceProvidersResource.get E req (Some sp_id)
  | list_service_providers => ServiceProvidersResource.get E req None
  | create_service_provider sp_id => ServiceProvidersResource.put E req sp_id
  | update_service_provider sp_id => ServiceProvidersResource.patch E req sp_id
  | delete_service_provider sp_id => ServiceProvidersResource.delete E req sp_id
  | get_auth_projects => OSFederationProjectResource.get E req
  | get_auth_domains => OSFederationDomainResource.get E req
  | get_saml2_metadata => SAML2MetadataResource.get E
  | get_federated_auth idp_id protocol_id =>
      OSFederationAuthResource.get E req idp_id protocol_id
  | post_federated_auth idp_id protocol_id =>
      OSFederationAuthResource.post E req idp_id protocol_id
  end.

(** The policy action of an operation; [None] for the handlers declared
    [@ks_flask.unenforced_api]. *)
Definition action_of (op : operation) : option string :=
  match op with
  | get_identity_provider _ => Some "identity:get_identity_provider"
  | list_identity_providers => Some "identity:list_identity_providers"
  | create_identity_provider _ => Some "identity:create_identity_provider"
  | update_identity_provider _ => Some "identity:update_identity_provider"
  | delete_identity_provider _ => Some "identity:delete_identity_provider"
  | get_protocol _ _ => Some "identity:get_protocol"
  | list_protocols _ => Some "identity:list_protocols"
  | create_protocol _ _ => Some "identity:create_protocol"
  | update_protocol _ _ => Some "identity:update_protocol"
  | delete_protocol _ _ => Some "identity:delete_protocol"
  | get_mapping _ => Some "identity:get_mapping"
  | list_mappings => Some "identity:list_mappings"
  | create_mapping _ => Some "identity:create_mapping"
  | update_mapping _ => Some "identity:update_mapping"
  | delete_mapping _ => Some "identity:delete_mapping"
  | get_service_provider _ => Some "identity:get_service_provider"
  | list_service_providers => Some "identity:list_service_providers"
  | create_service_provider _ => Some "identity:create_service_provider"
  | update_service_provider _ => Some "identity:update_service_provider"
  | delete_service_provider _ => Some "identity:delete_service_provider"
  | get_auth_projects => Some "identity:get_auth_projects"
  | get_auth_domains => Some "identity:get_auth_domains"
  | get_saml2_metadata => None
  | get_federated_auth _ _ => None
  | post_federated_auth _ _ => None
  end.

(** A computation only ever appends to the log of calls. *)
Definition log_grows {A} (m : M A) : Prop :=
  forall s, exists rest, log (m s).2 = log s ++ rest.

(** ** Vocabulary of the further properties *)

(** The schema an operation validates its document against, and the key of
    the request body the document is read from; [None] for the operations
    that call no [validation.lazy_validate]. *)
Definition validated_document (op : operation) : option (schema.t * string) :=
  match op with
  | create_identity_provider _ =>
      Some (schema.identity_provider_create, "identity_provider")
  | update_identity_provider _ =>
      Some (schema.identity_provider_update, "identity_provider")
  | create_protocol _ _ => Some (schema.protocol_create, "protocol")
  | update_protocol _ _ => Some (schema.protocol_update, "protocol")
  | create_service_provider _ =>
      Some (schema.service_provider_create, "service_provider")
  | update_service_provider _ =>
      Some (schema.service_provider_update, "service_provider")
  | _ => None
  end.

(** The assignment lookups of an aggregation, in order: the user lookup when
    [user_id] is truthy, then the group lookup when [group_ids] is truthy and
    the user lookup was skipped, returned, or raised [UserNotFound]. *)
Definition aggregation_lookups (user_method group_method : string)
    (user_lookup : value -> result (list dict)) (user_id group_ids : value)
  : list event :=
  (if truthy user_id then [EvAssignment user_method user_id] else []) ++
  (if truthy group_ids &&
      (if truthy user_id then
         match user_lookup user_id with
         | inl UserNotFound | inr _ => true
         | inl _ => false
         end
       else true)
   then [EvAssignment group_method group_ids]
   else []).

(** The deployment of the examples with a metadata file whose read raises
    [read_error] and a token pipeline that raises [pipeline_error]. *)
Definition failing_env (read_error pipeline_error : exn) : Env :=
  {| policy_allows := policy_allows Demo.env;
     schema_accepts := schema_accepts Demo.env;
     mapping_structure_ok := mapping_structure_ok Demo.env;
     _normalize_dict := _normalize_dict Demo.env;
     Hints := Hints Demo.env;
     build_driver_hints := build_driver_hints Demo.env;
     hints_match := hints_match Demo.env;
     wrap_collection := wrap_collection Demo.env;
     self_link := self_link Demo.env;
     base_url := base_url Demo.env;
     slash_percent_s := slash_percent_s Demo.env;
     CONF_saml_relay_state_prefix := CONF_saml_relay_state_prefix Demo.env;
     CONF_saml_idp_metadata_path := CONF_saml_idp_metadata_path Demo.env;
     AUTH_CONTEXT_ENV := AUTH_CONTEXT_ENV Demo.env;
     list_projects_for_user := list_projects_for_user Demo.env;
     list_projects_for_groups := list_projects_for_groups Demo.env;
     list_domains_for_user := list_domains_for_user Demo.env;
     list_domains_for_groups := list_domains_for_groups Demo.env;
     authenticate_for_token := fun _ _ => inl pipeline_error;
     read_file := fun _ => inl read_error;
     make_response_headers := make_response_headers Demo.env |}.

(** The events a computation appends to the log all satisfy [P]. *)
Definition emits (P : event -> bool) {A} (m : M A) : Prop :=
  forall s, exists rest, log (m s).2 = log s ++ rest /\ Forall (fun ev => P ev = true) rest.

(** The event is a call of the policy gate. *)
Definition gate_call (ev : event) : bool :=
  match ev with
  | EvEnforce _ => true
  | _ => false
  end.

(** The method of [PROVIDERS.federation_api] an operation is written to call;
    [None] for the operations that do not address the registries. *)
Definition provider_method (op : operation) : option string :=
  match op with
  | get_identity_provider _ => Some "get_idp"
  | list_identity_providers => Some "list_idps"
  | create_identity_provider _ => Some "create_idp"
  | update_identity_provider _ => Some "update_idp"
  | delete_identity_provider _ => Some "delete_idp"
  | get_protocol _ _ => Some "get_protocol"
  | list_protocols _ => Some "list_protocols"
  | create_protocol _ _ => Some "create_protocol"
  | update_protocol _ _ => Some "update_protocol"
  | delete_protocol _ _ => Some "delete_protocol"
  | get_mapping _ => Some "get_mapping"
  | list_mappings => Some "list_mappings"
  | create_mapping _ => Some "create_mapping"
  | update_mapping _ => Some "update_mapping"
  | delete_mapping _ => Some "delete_mapping"
  | get_service_provider _ => Some "get_sp"
  | list_service_providers => Some "list_sps"
  | create_service_provider _ => Some "create_sp"
  | update_service_provider _ => Some "update_sp"
  | delete_service_provider _ => Some "delete_sp"
  | get_auth_projects | get_auth_domains | get_saml2_metadata
  | get_federated_auth _ _ | post_federated_auth _ _ => None
  end.

(** The event is no call of the provider layer, or a call of [method]. *)
Definition no_other_provider_call (method : option string) (ev : event) : bool :=
  match ev with
  | EvFederation m _ => bool_decide (method = Some m)
  | _ => true
  end.

(** The results a computation returns, when it returns, all satisfy [Q]. *)
Definition returns {A} (Q : A -> Prop) (m : M A) : Prop :=
  forall s a, (m s).1 = inr a -> Q a.

(** The reply is a member: a dictionary with the single key [member_key],
    holding a dictionary. *)
Definition member_body (member_key : string) (v : value) : Prop :=
  exists member, v = VDict [(member_key, VDict member)].

(** The form of the reply of an operation that does not raise. *)
Definition reply_form (op : operation) (r : reply) : Prop :=
  match op with
  | get_identity_provider _ | update_identity_provider _ =>
      exists v, r = Body v /\ member_body "identity_provider" v
  | create_identity_provider _ =>
      exists v, r = BodyStatus v 201 /\ member_body "identity_provider" v
  | get_protocol _ _ | update_protocol _ _ =>
      exists v, r = Body v /\ member_body "protocol" v
  | create_protocol _ _ =>
      exists v, r = BodyStatus v 201 /\ member_body "protocol" v
  | get_mapping _ | update_mapping _ =>
      exists v, r = Body v /\ member_body "mapping" v
  | create_mapping _ =>
      exists v, r = BodyStatus v 201 /\ member_body "mapping" v
  | get_service_provider _ | update_service_provider _ =>
      exists v, r = Body v /\ member_body "service_provider" v
  | create_service_provider _ =>
      exists v, r = BodyStatus v 201 /\ member_body "service_provider" v
  | delete_identity_provider _ | delete_protocol _ _ | delete_mapping _
  | delete_service_provider _ =>
      r = BodyStatus VNone 204
  | list_identity_providers | list_protocols _ | list_mappings
  | list_service_providers | get_auth_projects | get_auth_domains =>
      exists collection, r = Body (VDict collection)
  | get_saml2_metadata =>
      exists f, r = Response f /\ flask_status_code f = 200
  | get_federated_auth _ _ | post_federated_auth _ _ =>
      exists f, r = Response f
  end.

#[global] Instance schema_eq_dec : EqDecision schema.t.
Proof. solve_decision. Defined.

(** The validation an operation is written to run on its document: a schema
    of [validation.lazy_validate], the structural validator of mappings, or
    none. *)
Definition validation_call (op : operation) (ev : event) : bool :=
  match ev with
  | EvValidate sch _ =>
      bool_decide (fst <$> validated_document op = Some sch)
  | EvValidateMapping _ =>
      match op with
      | create_mapping _ | update_mapping _ => true
      | _ => false
      end
  | _ => true
  end.

(** * Properties *)

(** ** Insertion-ordered dictionaries *)

Section dict_facts.
Context {K V : Type} `{EqDecision K}.
Implicit Types (d : list (K * V)) (k : K) (v : V).

Lemma get_set d k k' v :
  PyDict.get k' (PyDict.set k v d)
  = if decide (k' = k) then Some v else PyDict.get k' d.
Proof.
  induction d as [|[k0 v0] d IH]; simpl.
  - repeat case_decide; congruence.
  - repeat (case_decide; simpl); try congruence.
Qed.

Lemma get_Some_elem d k v : PyDict.get k d = Some v -> (k, v) ∈ d.
Proof.
  induction d as [|[k0 v0] d IH]; simpl; [done|].
  case_decide; intros Hg.
  - simplify_eq. left.
  - right. auto.
Qed.

Lemma get_None_keys d k : PyDict.get k d = None <-> k ∉ PyDict.keys d.
Proof.
  unfold PyDict.keys. induction d as [|[k0 v0] d IH]; simpl.
  - split; [intros _; apply not_elem_of_nil | done].
  - rewrite not_elem_of_cons. case_decide; [|tauto]. split; [done|]. by intros [? _].
Qed.

Lemma get_is_Some_keys d k : is_Some (PyDict.get k d) <-> k ∈ PyDict.keys d.
Proof.
  destruct (PyDict.get k d) eqn:Hg.
  - split; [intros _|eauto]. apply get_Some_elem in Hg.
    unfold PyDict.keys. apply list_elem_of_fmap. by exists (k, v).
  - apply get_None_keys in Hg. split; [by intros [? ?]|done].
Qed.

Lemma elem_get d k v : NoDup (PyDict.keys d) -> (k, v) ∈ d -> PyDict.get k d = Some v.
Proof.
  unfold PyDict.keys. induction d as [|[k0 v0] d IH]; simpl.
  - intros _ Hin. by apply elem_of_nil in Hin.
  - rewrite NoDup_cons. intros [Hk0 Hnd] Hin.
    apply elem_of_cons in Hin as [Heq|Hin].
    + simplify_eq. by rewrite decide_True.
    + case_decide as Hk; [|auto]. subst k0. destruct Hk0.
      apply list_elem_of_fmap. by exists (k, v).
Qed.

Lemma keys_set d k v :
  PyDict.keys (PyDict.set k v d)
  = if PyDict.get k d is Some _ then PyDict.keys d else PyDict.keys d ++ [k].
Proof.
  unfold PyDict.keys. induction d as [|[k0 v0] d IH]; [done|].
  cbn [PyDict.set PyDict.get]. case_decide; [done|].
  rewrite !fmap_cons, IH. by destruct (PyDict.get k d).
Qed.

Lemma NoDup_keys_set d k v :
  NoDup (PyDict.keys d) -> NoDup (PyDict.keys (PyDict.set k v d)).
Proof.
  intros Hnd. rewrite keys_set. destruct (PyDict.get k d) eqn:Hg; [done|].
  apply NoDup_app. split_and!; [done| |apply NoDup_singleton].
  intros x Hx Hx'. apply list_elem_of_singleton in Hx' as ->.
  by apply get_None_keys in Hg.
Qed.

Lemma elem_set d k v k' v' :
  (k', v') ∈ PyDict.set k v d -> (k' = k /\ v' = v) \/ (k', v') ∈ d.
Proof.
  induction d as [|[k0 v0] d IH]; simpl.
  - intros Hin. apply list_elem_of_singleton in Hin. simplify_eq. by left.
  - case_decide; rewrite !elem_of_cons; intros [Heq|Hin]; simplify_eq; auto.
    destruct (IH Hin); auto.
Qed.

Lemma setdefault_get d k v :
  PyDict.get k (PyDict.setdefault k v d)
  = Some (default v (PyDict.get k d)).
Proof.
  unfold PyDict.setdefault. destruct (PyDict.get k d) eqn:Hg; simpl; [done|].
  rewrite get_set. by rewrite decide_True.
Qed.

Lemma setdefault_get_ne d k k' v :
  k' <> k -> PyDict.get k' (PyDict.setdefault k v d) = PyDict.get k' d.
Proof.
  intros Hne. unfold PyDict.setdefault. destruct (PyDict.get k d); [done|].
  rewrite get_set. by rewrite decide_False.
Qed.
End dict_facts.

(** ** The dictionary built by the comprehension over the ids *)

Lemma last_by_id_Some k xs x :
  last_by_id k xs = Some x -> x ∈ xs /\ id_key x = inr k.
Proof.
  induction xs as [|y xs IH]; simpl; [done|].
  destruct (last_by_id k xs) as [z|].
  - intros [= ->]. destruct IH as [? ?]; [done|]. split; [by right|done].
  - case_decide; intros [= ->]. split; [left|done].
Qed.

Lemma last_by_id_is_Some k xs :
  is_Some (last_by_id k xs) <-> k ∈ ids xs.
Proof.
  unfold ids. induction xs as [|y xs IH]; simpl.
  - split; [by intros [? ?]|intros Hin; by apply elem_of_nil in Hin].
  - destruct (last_by_id k xs) as [z|].
    + split; [intros _|eauto].
      destruct (id_key y); [|right]; by apply IH.
    + case_decide as Hy.
      * rewrite Hy. split; [intros _; left|eauto].
      * split; [by intros [? ?]|]. intros Hin. exfalso.
        destruct (id_key y) as [e|k'].
        -- apply IH in Hin. by destruct Hin.
        -- apply elem_of_cons in Hin as [->|Hin]; [done|].
           apply IH in Hin. by destruct Hin.
Qed.

Lemma dict_by_id_spec xs acc :
  Forall carries_id xs ->
  exists d, dict_by_id xs acc = inr d /\
    (forall k, PyDict.get k d
               = match last_by_id k xs with
                 | Some x => Some x
                 | None => PyDict.get k acc
                 end) /\
    (NoDup (PyDict.keys acc) -> NoDup (PyDict.keys d)) /\
    ((forall k x, (k, x) ∈ acc -> id_key x = inr k) ->
     forall k x, (k, x) ∈ d -> id_key x = inr k).
Proof.
  intros Hxs. revert acc.
  induction Hxs as [|x xs [kx Hx] _ IH]; intros acc; simpl.
  - exists acc. split_and!; auto.
  - rewrite Hx. destruct (IH (PyDict.set kx x acc)) as (d & Hd & Hget & Hnd & Hid).
    exists d. split_and!; [done| | |].
    + intros k. rewrite Hget, get_set.
      destruct (last_by_id k xs); [done|].
      repeat case_decide; congruence.
    + intros Hacc. by apply Hnd, NoDup_keys_set.
    + intros Hacc. apply Hid. intros k y Hin.
      apply elem_set in Hin as [[-> ->]|Hin]; auto.
Qed.

Lemma ids_values (d : list (key * dict)) :
  (forall k x, (k, x) ∈ d -> id_key x = inr k) ->
  ids (PyDict.values d) = PyDict.keys d.
Proof.
  unfold ids, PyDict.values, PyDict.keys.
  induction d as [|[k x] d IH]; intros Hd; [done|].
  rewrite !fmap_cons. cbn [omap list_omap]. simpl.
  rewrite (Hd k x) by left. f_equal. apply IH.
  intros k' x' Hin. apply Hd. by right.
Qed.

Lemma ids_app xs ys : ids (xs ++ ys) = ids xs ++ ids ys.
Proof. unfold ids. apply omap_app. Qed.

(** ** C2: combining the user-derived and the group-derived references *)

Example combine_overlapping :
  _combine_lists_uniquely
    [[("id", VInt 1)]; [("id", VInt 2)]] [[("id", VInt 2)]; [("id", VInt 3)]]
  = inr [[("id", VInt 1)]; [("id", VInt 2)]; [("id", VInt 3)]].
Proof. reflexivity. Qed.

Example combine_empty_user_refs :
  _combine_lists_uniquely [] [[("id", VInt 5)]] = inr [[("id", VInt 5)]].
Proof. reflexivity. Qed.

Example combine_last_seen_wins :
  _combine_lists_uniquely
    [[("id", VStr "p"); ("name", VStr "old")]]
    [[("id", VStr "q")]; [("id", VStr "p"); ("name", VStr "new")]]
  = inr [[("id", VStr "p"); ("name", VStr "new")]; [("id", VStr "q")]].
Proof. reflexivity. Qed.

(** C2. For lists [a] and [b] of references that each carry an ['id'],
    [_combine_lists_uniquely a b] returns a collection [r]. When both lists are
    non-empty, no id appears twice in [r], the ids of [r] are exactly the ids
    of [a] together with the ids of [b], and the reference kept for an id is
    the last one of [a + b] with that id. When one of the lists is empty, [r]
    is the other list, untouched. *)
Theorem combine_lists_uniquely_spec (a b : list dict) :
  Forall carries_id a -> Forall carries_id b ->
  exists r, _combine_lists_uniquely a b = inr r /\
    (a <> [] -> b <> [] ->
       NoDup (ids r) /\
       (forall k, k ∈ ids r <-> k ∈ ids a \/ k ∈ ids b) /\
       (forall k x, x ∈ r /\ id_key x = inr k
                    <-> last_by_id k (a ++ b) = Some x)) /\
    (a = [] -> r = b) /\
    (b = [] -> r = a).
Proof.
  intros Ha Hb. unfold _combine_lists_uniquely.
  destruct a as [|x a]; [exists b; simpl; split_and!; done|].
  destruct b as [|y b]; [exists (x :: a); simpl; split_and!; done|].
  cbn [list_truthy andb].
  destruct (dict_by_id_spec ((x :: a) ++ y :: b) [])
    as (d & -> & Hget & Hnd & Hid); [by apply Forall_app|].
  specialize (Hnd (NoDup_nil_2 : NoDup (PyDict.keys (V:=dict) []))).
  assert (Hid' : forall k z, (k, z) ∈ d -> id_key z = inr k).
  { apply Hid. intros k z Hin. by apply elem_of_nil in Hin. }
  assert (Hget' : forall k, PyDict.get k d = last_by_id k ((x :: a) ++ y :: b)).
  { intros k. rewrite Hget. by destruct (last_by_id _ _). }
  exists (PyDict.values d). split_and!; [done| |done|done].
  intros _ _. rewrite ids_values by done. split_and!; [done| |].
  - intros k. rewrite <- get_is_Some_keys, Hget', last_by_id_is_Some, ids_app.
    apply elem_of_app.
  - intros k z. rewrite <- Hget'. split.
    + intros [Hin Hz]. unfold PyDict.values in Hin.
      apply list_elem_of_fmap in Hin as ([k' z'] & -> & Hin). simpl in Hz.
      rewrite (Hid' _ _ Hin) in Hz. simplify_eq. by apply elem_get.
    + intros Hg. split.
      * apply get_Some_elem in Hg. unfold PyDict.values.
        apply list_elem_of_fmap. by exists (k, z).
      * rewrite Hget' in Hg. by apply last_by_id_Some in Hg as [_ ?].
Qed.

Lemma combine_lists_uniquely_spec_witness :
  exists r,
    _combine_lists_uniquely
      [[("id", VInt 1)]; [("id", VInt 2)]] [[("id", VInt 2)]; [("id", VInt 3)]]
    = inr r /\
    NoDup (ids r) /\
    (forall k, k ∈ ids r <-> k ∈ [KInt 1; KInt 2] \/ k ∈ [KInt 2; KInt 3]).
Proof.
  destruct (combine_lists_uniquely_spec
              [[("id", VInt 1)]; [("id", VInt 2)]]
              [[("id", VInt 2)]; [("id", VInt 3)]])
    as (r & Hr & Hboth & _).
  - repeat constructor; eexists; reflexivity.
  - repeat constructor; eexists; reflexivity.
  - exists r. split; [exact Hr|].
    destruct Hboth as (Hnd & Hids & _); [discriminate|discriminate|].
    split; [exact Hnd|exact Hids].
Defined.

(** ** Header lists *)









Lemma filter_same_header_excluded name (hs : headers) :
  List.filter (same_header name)
    (List.filter (fun h' => negb (same_header name h')) hs) = [].
Proof.
  induction hs as [|h hs IH]; [done|]. simpl.
  destruct (same_header name h) eqn:Hh; simpl; [done|]. by rewrite Hh.
Qed.

Lemma get_all_headers_set name v (hs : headers) :
  get_all name (headers_set name v hs) = [v].
Proof.
  unfold get_all. induction hs as [|h hs IH]; simpl.
  - unfold same_header. simpl. by rewrite String.eqb_refl.
  - destruct (same_header name h) eqn:Hh; simpl.
    + unfold same_header at 1. simpl. rewrite String.eqb_refl. simpl.
      by rewrite filter_same_header_excluded.
    + by rewrite Hh.
Qed.

(** ** Running handlers *)

(** Unfold the monadic plumbing of a handler applied to a state. *)
Ltac run :=
  unfold enforce_call, lazy_validate, validate_mapping_structure,
    assignment_call, try_except, bind, emit, lift, ret, raise,
    get_registry, put_registry;
  cbn beta iota; cbn [registry log fst snd].

(** ** C1: the payload the authentication bridge submits *)

Example auth_payload_saml2 :
  OSFederationAuthResource.auth_payload "idp1" "saml2"
  = generic_auth_payload "idp1" "saml2".
Proof. reflexivity. Qed.

(** C1 (as stated, at [protocol_id = "methods"]). The entry of the protocol
    overwrites the ['methods'] entry of the dictionary display: the payload
    has a single member under ['identity'], its [identity.methods] is not
    [["methods"]], and it is not the generic payload. *)
Lemma auth_payload_methods_collision :
  OSFederationAuthResource.auth_payload "idp1" "methods"
  = VDict
      [("identity",
        VDict
          [("methods",
            VDict [("identity_provider", VStr "idp1");
                   ("protocol", VStr "methods")])])]
  /\ OSFederationAuthResource.auth_payload "idp1" "methods"
     <> generic_auth_payload "idp1" "methods".
Proof. split; [reflexivity|discriminate]. Qed.

Lemma auth_payload_generic idp_id protocol_id :
  protocol_id <> "methods" ->
  OSFederationAuthResource.auth_payload idp_id protocol_id
  = generic_auth_payload idp_id protocol_id.
Proof.
  intros Hne. unfold OSFederationAuthResource.auth_payload, generic_auth_payload.
  unfold PyDict.of_items. simpl. rewrite decide_False by done. done.
Qed.

(** C1 (amended). For every [idp_id] and every [protocol_id] other than
    ["methods"], [_auth] synthesizes exactly the generic auth payload:
    under ['identity'], ['methods'] is [[protocol_id]] and [<protocol_id>] is
    [{identity_provider: idp_id, protocol: protocol_id}]. It submits this
    payload, once, to the token pipeline together with a request over the
    unchanged ambient environment, and does nothing else. *)
Theorem auth_submits_generic_payload E req idp_id protocol_id s :
  protocol_id <> "methods" ->
  exists identity,
    OSFederationAuthResource.auth_payload idp_id protocol_id
    = VDict [("identity", VDict identity)] /\
    VDict [("identity", VDict identity)] = generic_auth_payload idp_id protocol_id /\
    PyDict.get "methods" identity = Some (VList [VStr protocol_id]) /\
    PyDict.get protocol_id identity
    = Some (VDict [("identity_provider", VStr idp_id);
                   ("protocol", VStr protocol_id)]) /\
    PyDict.keys identity = ["methods"; protocol_id] /\
    let (r, s') := OSFederationAuthResource._auth E req idp_id protocol_id s in
    registry s' = registry s /\
    log s' = log s ++ [EvAuthenticate (Request (environ req))
                         (VDict [("identity", VDict identity)])] /\
    match authenticate_for_token E (Request (environ req))
            (VDict [("identity", VDict identity)]) with
    | inl e => r = inl e
    | inr w => exists f, r = inr (Response f)
    end.
Proof.
  intros Hne.
  eexists. split; [by apply auth_payload_generic|]. split; [reflexivity|].
  split_and!.
  - reflexivity.
  - simpl. rewrite decide_False by done. by rewrite decide_True.
  - reflexivity.
  - unfold OSFederationAuthResource._auth,
      OSFederationAuthResource._construct_webob_request.
    rewrite auth_payload_generic by done. run. simpl.
    destruct (authenticate_for_token E _ _) as [e|w]; simpl; eauto.
Qed.

Lemma auth_submits_generic_payload_witness :
  exists identity,
    OSFederationAuthResource.auth_payload "idp1" "saml2"
    = VDict [("identity", VDict identity)] /\
    PyDict.get "methods" identity = Some (VList [VStr "saml2"]) /\
    PyDict.get "saml2" identity
    = Some (VDict [("identity_provider", VStr "idp1"); ("protocol", VStr "saml2")]).
Proof.
  destruct (auth_submits_generic_payload Demo.env (Demo.admin_request [] [])
              "idp1" "saml2" Demo.fresh)
    as (identity & Hp & _ & Hm & Hi & _); [discriminate|].
  exists identity. split; [exact Hp|]. split; [exact Hm|exact Hi].
Defined.

(** ** C4: the response of the token pipeline is relayed *)



(** ** C10: the GET and POST handlers of the auth endpoint *)

(** C10. For every [idp_id], [protocol_id], ambient request and state, the
    GET and the POST handler of the federated auth endpoint both run [_auth]
    on the same arguments, and so give the same response and the same final
    state. *)
Theorem auth_get_post_equivalent E req idp_id protocol_id s :
  OSFederationAuthResource.get E req idp_id protocol_id s
  = OSFederationAuthResource._auth E req idp_id protocol_id s /\
  OSFederationAuthResource.post E req idp_id protocol_id s
  = OSFederationAuthResource._auth E req idp_id protocol_id s /\
  OSFederationAuthResource.get E req idp_id protocol_id s
  = OSFederationAuthResource.post E req idp_id protocol_id s.
Proof. by split_and!. Qed.

(** ** C9: the SAML2 metadata document *)

(** C9. When reading the configured metadata file raises an I/O error, the
    metadata operation fails with [MetadataFileError] carrying the reason,
    not with the I/O error; when the read succeeds, the response carries the
    contents of the file with status 200 and the single Content-Type
    [text/xml]. *)
Theorem metadata_get_spec E s :
  let path := CONF_saml_idp_metadata_path E in
  let s' := {| registry := registry s; log := log s ++ [EvOpen path] |} in
  (forall reason,
     read_file E path = inl (IOError reason) ->
     SAML2MetadataResource.get E s = (inl (MetadataFileError reason), s')) /\
  (forall metadata,
     read_file E path = inr metadata ->
     exists f,
       SAML2MetadataResource.get E s = (inr (Response f), s') /\
       flask_body f = metadata /\
       flask_status_code f = 200 /\
       get_all "Content-Type" (flask_headers f) = ["text/xml"]).
Proof.
  intros path s'. subst path s'. unfold SAML2MetadataResource.get. run. split.
  - intros reason Hread. by rewrite Hread.
  - intros metadata Hread. rewrite Hread. eexists. split; [reflexivity|].
    simpl. split_and!; [done|done|]. apply get_all_headers_set.
Qed.

Lemma metadata_get_spec_witness :
  SAML2MetadataResource.get (Demo.env_with_metadata_path "/nonexistent") Demo.fresh
  = (inl (MetadataFileError "No such file or directory"),
     {| registry := Demo.empty_registries; log := [EvOpen "/nonexistent"] |}) /\
  exists f,
    SAML2MetadataResource.get Demo.env Demo.fresh
    = (inr (Response f),
       {| registry := Demo.empty_registries;
          log := [EvOpen "/etc/keystone/saml2_idp_metadata.xml"] |}) /\
    flask_body f = "<EntityDescriptor/>" /\
    flask_status_code f = 200 /\
    get_all "Content-Type" (flask_headers f) = ["text/xml"].
Proof.
  split.
  - apply (proj1 (metadata_get_spec
                    (Demo.env_with_metadata_path "/nonexistent") Demo.fresh)).
    reflexivity.
  - apply (proj2 (metadata_get_spec Demo.env Demo.fresh)). reflexivity.
Defined.

(** ** C3: which lookup failures the aggregation swallows *)

Lemma combine_nil_l b : _combine_lists_uniquely [] b = inr b.
Proof. reflexivity. Qed.

Lemma project_get_run E req ctx s :
  policy_allows E "identity:get_auth_projects" req = true ->
  PyDict.get (AUTH_CONTEXT_ENV E) (environ req) = Some (VDict ctx) ->
  let user_id := default VNone (PyDict.get "user_id" ctx) in
  let group_ids := default VNone (PyDict.get "group_ids" ctx) in
  (OSFederationProjectResource.get E req s).1
  = match
      (if truthy user_id then
         match list_projects_for_user E user_id with
         | inl UserNotFound => inr []
         | r => r
         end
       else inr [])
    with
    | inl e => inl e
    | inr user_refs =>
        match
          (if truthy group_ids then list_projects_for_groups E group_ids
           else inr [])
        with
        | inl e => inl e
        | inr group_refs =>
            match _combine_lists_uniquely user_refs group_refs with
            | inl e => inl e
            | inr refs => inr (Body (VDict (wrap_collection E "projects" refs None)))
            end
        end
    end.
Proof.
  intros Hpol Hctx user_id group_ids. subst user_id group_ids.
  unfold OSFederationProjectResource.get. run. rewrite Hpol, Hctx. simpl.
  destruct (truthy (default VNone (PyDict.get "user_id" ctx)));
    [destruct (list_projects_for_user E _) as [[]|user_refs]|]; simpl; try done;
    (destruct (truthy (default VNone (PyDict.get "group_ids" ctx)));
     [destruct (list_projects_for_groups E _) as [e|group_refs]|]; simpl; try done;
     by destruct (_combine_lists_uniquely _ _)).
Qed.

Lemma domain_get_run E req ctx s :
  policy_allows E "identity:get_auth_domains" req = true ->
  PyDict.get (AUTH_CONTEXT_ENV E) (environ req) = Some (VDict ctx) ->
  let user_id := default VNone (PyDict.get "user_id" ctx) in
  let group_ids := default VNone (PyDict.get "group_ids" ctx) in
  (OSFederationDomainResource.get E req s).1
  = match
      (if truthy user_id then
         match list_domains_for_user E user_id with
         | inl UserNotFound => inr []
         | r => r
         end
       else inr [])
    with
    | inl e => inl e
    | inr user_refs =>
        match
          (if truthy group_ids then list_domains_for_groups E group_ids
           else inr [])
        with
        | inl e => inl e
        | inr group_refs =>
            match _combine_lists_uniquely user_refs group_refs with
            | inl e => inl e
            | inr refs => inr (Body (VDict (wrap_collection E "domains" refs None)))
            end
        end
    end.
Proof.
  intros Hpol Hctx user_id group_ids. subst user_id group_ids.
  unfold OSFederationDomainResource.get. run. rewrite Hpol, Hctx. simpl.
  destruct (truthy (default VNone (PyDict.get "user_id" ctx)));
    [destruct (list_domains_for_user E _) as [[]|user_refs]|]; simpl; try done;
    (destruct (truthy (default VNone (PyDict.get "group_ids" ctx)));
     [destruct (list_domains_for_groups E _) as [e|group_refs]|]; simpl; try done;
     by destruct (_combine_lists_uniquely _ _)).
Qed.

Lemma aggregation_suppresses (user_id group_ids : value)
    (user_lookup group_lookup : value -> result (list dict))
    (wrap : list dict -> reply) :
  suppresses_only_user_not_found
    (match
       (if truthy user_id then
          match user_lookup user_id with
          | inl UserNotFound => inr []
          | r => r
          end
        else inr [])
     with
     | inl e => inl e
     | inr user_refs =>
         match (if truthy group_ids then group_lookup group_ids else inr []) with
         | inl e => inl e
         | inr group_refs =>
             match _combine_lists_uniquely user_refs group_refs with
             | inl e => inl e
             | inr refs => inr (wrap refs)
             end
         end
     end)
    user_id group_ids user_lookup group_lookup wrap.
Proof.
  unfold suppresses_only_user_not_found. split_and!.
  - intros -> ->. destruct (if truthy group_ids then _ else _); [done|].
    by rewrite combine_nil_l.
  - intros e -> -> Hne. by destruct e.
  - intros e -> -> [->|[->|[refs ->]]]; by destruct (truthy user_id).
Qed.

(** C3. In the project and in the domain aggregation, once the policy gate
    has allowed the call: a [UserNotFound] raised by the per-user assignment
    lookup is swallowed and the user-derived set is empty; every other error
    of that lookup, and every error of the per-group lookup ([UserNotFound]
    included), is the outcome of the operation, unchanged. *)
Theorem aggregation_suppresses_only_user_not_found E req ctx s :
  PyDict.get (AUTH_CONTEXT_ENV E) (environ req) = Some (VDict ctx) ->
  let user_id := default VNone (PyDict.get "user_id" ctx) in
  let group_ids := default VNone (PyDict.get "group_ids" ctx) in
  (policy_allows E "identity:get_auth_projects" req = true ->
   suppresses_only_user_not_found
     (OSFederationProjectResource.get E req s).1 user_id group_ids
     (list_projects_for_user E) (list_projects_for_groups E)
     (fun refs => Body (VDict (wrap_collection E "projects" refs None)))) /\
  (policy_allows E "identity:get_auth_domains" req = true ->
   suppresses_only_user_not_found
     (OSFederationDomainResource.get E req s).1 user_id group_ids
     (list_domains_for_user E) (list_domains_for_groups E)
     (fun refs => Body (VDict (wrap_collection E "domains" refs None)))).
Proof.
  intros Hctx user_id group_ids. split; intros Hpol.
  - rewrite (project_get_run E req ctx s Hpol Hctx).
    apply (aggregation_suppresses user_id group_ids).
  - rewrite (domain_get_run E req ctx s Hpol Hctx).
    apply (aggregation_suppresses user_id group_ids).
Qed.

Lemma aggregation_suppresses_only_user_not_found_witness :
  (* an unknown user in group devs sees the projects of the group *)
  (OSFederationProjectResource.get Demo.env
     (Demo.admin_request []
        [("user_id", VStr "bob"); ("group_ids", VList [VStr "devs"])])
     Demo.fresh).1
  = inr (Body (VDict [("projects", VList [VDict [("id", VStr "p2")]])])) /\
  (* another failure of the user lookup is not swallowed *)
  (OSFederationProjectResource.get Demo.env
     (Demo.admin_request []
        [("user_id", VStr "mallory"); ("group_ids", VList [VStr "devs"])])
     Demo.fresh).1
  = inl (OtherError "Unauthorized") /\
  (* a UserNotFound of the group lookup is not swallowed *)
  (OSFederationDomainResource.get Demo.env
     (Demo.admin_request []
        [("user_id", VStr "alice"); ("group_ids", VList [VStr "ghosts"])])
     Demo.fresh).1
  = inl UserNotFound.
Proof.
  split_and!.
  - destruct (aggregation_suppresses_only_user_not_found Demo.env
                (Demo.admin_request []
                   [("user_id", VStr "bob"); ("group_ids", VList [VStr "devs"])])
                [("user_id", VStr "bob"); ("group_ids", VList [VStr "devs"])]
                Demo.fresh eq_refl) as [Hprojects _].
    destruct (Hprojects eq_refl) as (Hswallow & _ & _).
    exact (Hswallow eq_refl eq_refl).
  - destruct (aggregation_suppresses_only_user_not_found Demo.env
                (Demo.admin_request []
                   [("user_id", VStr "mallory"); ("group_ids", VList [VStr "devs"])])
                [("user_id", VStr "mallory"); ("group_ids", VList [VStr "devs"])]
                Demo.fresh eq_refl) as [Hprojects _].
    destruct (Hprojects eq_refl) as (_ & Huser & _).
    apply Huser; [reflexivity|reflexivity|discriminate].
  - destruct (aggregation_suppresses_only_user_not_found Demo.env
                (Demo.admin_request []
                   [("user_id", VStr "alice"); ("group_ids", VList [VStr "ghosts"])])
                [("user_id", VStr "alice"); ("group_ids", VList [VStr "ghosts"])]
                Demo.fresh eq_refl) as [_ Hdomains].
    destruct (Hdomains eq_refl) as (_ & _ & Hgroup).
    apply Hgroup; [reflexivity|reflexivity|].
    right. right. eexists. reflexivity.
Defined.

(** ** C5: a mapping is validated before it is written *)

Lemma calls_no_provider_validated method mapping_id new :
  calls_no_provider new -> validated_before method mapping_id new.
Proof.
  intros Hno pre args post ->. destruct (Hno method args).
  apply elem_of_app. right. left.
Qed.

Lemma validated_before_write action method mapping_id d :
  validated_before method mapping_id
    [EvEnforce action; EvValidateMapping d;
     EvFederation method [VStr mapping_id; VDict d]].
Proof.
  intros pre args post Hnew.
  destruct pre as [|e1 [|e2 [|e3 pre]]]; simplify_eq/=.
  - exists d. split; [done|]. right. left.
  - by destruct pre.
Qed.

Ltac no_provider_call :=
  let Hin := fresh "Hin" in
  intros ? ? Hin;
  repeat (apply elem_of_cons in Hin as [Hin|Hin]; [discriminate|]);
  by apply elem_of_nil in Hin.

Ltac mapping_write_outcome :=
  cbn [log registry];
  eexists; split; [rewrite <- ?app_assoc; reflexivity|];
  split_and!;
  [ first [ apply validated_before_write
          | apply calls_no_provider_validated; no_provider_call ]
  | intros d' Hpol' Hnorm'; simplify_eq; by repeat constructor
  | intros d' Hin Hbad;
    repeat (apply elem_of_cons in Hin as [Hin|Hin]; simplify_eq);
    try (by apply elem_of_nil in Hin); try congruence;
    (split_and!; [done|done|no_provider_call]) ].

(** C5. On every mapping create and every mapping update: a call of the
    provider's create_mapping/update_mapping is preceded by a run of the
    structural validator on the document that is written; the validator is
    run on the normalised submitted document whenever the policy gate allows
    the call; and when the validator rejects the document the operation
    raises [ValidationError], the registries are unchanged and the provider
    layer is not called. *)
Theorem mapping_write_validates_first E req mapping_id s :
  (let (r, s') := MappingResource.put E req mapping_id s in
   exists new,
     log s' = log s ++ new /\
     validated_before "create_mapping" mapping_id new /\
     (forall d,
        policy_allows E "identity:create_mapping" req = true ->
        _normalize_dict E (get_or_empty (request_body_json req) "mapping") = inr d ->
        EvValidateMapping d ∈ new) /\
     (forall d,
        EvValidateMapping d ∈ new ->
        mapping_structure_ok E d = false ->
        r = inl ValidationError /\ registry s' = registry s /\
        calls_no_provider new)) /\
  (let (r, s') := MappingResource.patch E req mapping_id s in
   exists new,
     log s' = log s ++ new /\
     validated_before "update_mapping" mapping_id new /\
     (forall d,
        policy_allows E "identity:update_mapping" req = true ->
        _normalize_dict E (get_or_empty (request_body_json req) "mapping") = inr d ->
        EvValidateMapping d ∈ new) /\
     (forall d,
        EvValidateMapping d ∈ new ->
        mapping_structure_ok E d = false ->
        r = inl ValidationError /\ registry s' = registry s /\
        calls_no_provider new)).
Proof.
  split.
  - unfold MappingResource.put, wrap_member. run.
    destruct (policy_allows E _ req) eqn:Hpol; [|mapping_write_outcome].
    destruct (_normalize_dict E _) as [e|d] eqn:Hnorm; [mapping_write_outcome|].
    destruct (mapping_structure_ok E d) eqn:Hok; [|mapping_write_outcome].
    unfold federation_api.create_mapping. run.
    destruct (PyDict.get mapping_id (mappings (registry s)));
      mapping_write_outcome.
  - unfold MappingResource.patch, wrap_member. run.
    destruct (policy_allows E _ req) eqn:Hpol; [|mapping_write_outcome].
    destruct (_normalize_dict E _) as [e|d] eqn:Hnorm; [mapping_write_outcome|].
    destruct (mapping_structure_ok E d) eqn:Hok; [|mapping_write_outcome].
    unfold federation_api.update_mapping. run.
    destruct (PyDict.get mapping_id (mappings (registry s)));
      mapping_write_outcome.
Qed.

Lemma mapping_write_validates_first_witness :
  let req := Demo.admin_request [("mapping", VDict [("rules", VList [])])] [] in
  (MappingResource.put Demo.env req "m1" Demo.fresh).1 = inl ValidationError /\
  registry (MappingResource.put Demo.env req "m1" Demo.fresh).2
  = Demo.empty_registries.
Proof.
  intros req.
  destruct (mapping_write_validates_first Demo.env req "m1" Demo.fresh) as [H _].
  destruct (MappingResource.put Demo.env req "m1" Demo.fresh) as [r s'].
  destruct H as (new & _ & _ & Hrun & Hrejected).
  specialize (Hrun [("rules", VList [])] eq_refl eq_refl).
  destruct (Hrejected _ Hrun eq_refl) as (Hr & Hreg & _).
  split; [exact Hr|exact Hreg].
Defined.

(** ** Wrapping a reference for the caller *)

Lemma get_filter (public : list string) (d : dict) k :
  PyDict.get k (List.filter (fun kv => bool_decide (kv.1 ∈ public)) d)
  = if bool_decide (k ∈ public) then PyDict.get k d else None.
Proof.
  induction d as [|[k0 v0] d IH];
    cbn [List.filter PyDict.get fst snd]; [by destruct (bool_decide _)|].
  destruct (bool_decide (k0 ∈ public)) eqn:Hk0; cbn [PyDict.get]; rewrite IH;
    destruct (decide (k = k0)) as [->|Hk]; by rewrite ?Hk0.
Qed.

Lemma filter_params_get cls (ref : dict) k :
  k ∈ _public_parameters cls ->
  PyDict.get k (filter_params cls ref) = PyDict.get k ref.
Proof.
  intros Hk. unfold filter_params.
  destruct (_public_parameters cls) as [|p ps] eqn:Hp; [done|].
  rewrite get_filter. by rewrite bool_decide_eq_true_2.
Qed.

(** The member an identity provider reference is wrapped into keeps the
    public entries of the reference, its links apart. *)
Lemma idp_wrap_member E (ref : dict) s :
  exists member,
    wrap_member E (IdentityProvidersResource.cls E) ref s
    = (inr [("identity_provider", VDict member)], s) /\
    forall k,
      k ∈ ["id"; "enabled"; "description"; "remote_ids"; "domain_id"] ->
      PyDict.get k member = PyDict.get k ref.
Proof.
  unfold wrap_member, _add_self_referential_link. run.
  cbn [_add_related_links IdentityProvidersResource.cls collection_key member_key].
  unfold IdentityProvidersResource._add_related_links.
  rewrite get_set, decide_True by done. cbn [py_get default PyDict.get].
  rewrite decide_True by done. cbn [default].
  eexists. split; [reflexivity|].
  intros k Hk.
  repeat (apply elem_of_cons in Hk as [->|Hk]);
    try (by apply elem_of_nil in Hk);
    (rewrite filter_params_get by (cbn; by repeat constructor));
    rewrite !get_set; by rewrite !decide_False.
Qed.

(** The member a service provider reference is wrapped into keeps the public
    entries of the reference, its links apart. *)
Lemma sp_wrap_member E (ref : dict) s :
  exists member,
    wrap_member E ServiceProvidersResource.cls ref s
    = (inr [("service_provider", VDict member)], s) /\
    forall k,
      k ∈ ["auth_url"; "id"; "enabled"; "description"; "relay_state_prefix";
            "sp_url"] ->
      PyDict.get k member = PyDict.get k ref.
Proof.
  unfold wrap_member, _add_self_referential_link. run.
  cbn [_add_related_links ServiceProvidersResource.cls collection_key member_key
       _ResourceBase._add_related_links].
  eexists. split; [reflexivity|].
  intros k Hk.
  repeat (apply elem_of_cons in Hk as [->|Hk]);
    try (by apply elem_of_nil in Hk);
    (rewrite (filter_params_get ServiceProvidersResource.cls)
       by (cbn; by repeat constructor));
    rewrite get_set; by rewrite decide_False.
Qed.

Lemma remote_ids_of_setdefault (d : dict) k v :
  k <> "remote_ids" ->
  remote_ids_of (PyDict.setdefault k v d) = remote_ids_of d.
Proof.
  intros Hk. unfold remote_ids_of. by rewrite setdefault_get_ne.
Qed.

(** ** C6: the default of [enabled] on identity provider create *)

(** C6. On an identity provider create that passes the policy gate and the
    schema, and whose key normalisation leaves the ['enabled'] entry of the
    submitted document as it is: the record passed to the provider's
    [create_idp] has [enabled = False] when the document omits ['enabled'],
    and the supplied value otherwise. When the provider accepts the record
    (the id is free and no remote id collides), the member returned to the
    caller has the id and that value of [enabled], and so has the member a
    subsequent get of the id returns. *)
Theorem idp_create_defaults_enabled E req idp_id raw d s :
  policy_allows E "identity:create_identity_provider" req = true ->
  get_or_empty (request_body_json req) "identity_provider" = VDict raw ->
  schema_accepts E schema.identity_provider_create (VDict raw) = true ->
  _normalize_dict E (VDict raw) = inr d ->
  PyDict.get "enabled" d = PyDict.get "enabled" raw ->
  let enabled := default (VBool false) (PyDict.get "enabled" raw) in
  let (r, s') := IdentityProvidersResource.put E req idp_id s in
  (exists idp,
     log s' = log s ++ [EvEnforce "identity:create_identity_provider";
                        EvValidate schema.identity_provider_create (VDict raw);
                        EvFederation "create_idp" [VStr idp_id; VDict idp]] /\
     PyDict.get "enabled" idp = Some enabled) /\
  (PyDict.get idp_id (idps (registry s)) = None ->
   remote_ids_collide (remote_ids_of d) (idps (registry s)) = false ->
   (exists member,
      r = inr (BodyStatus (VDict [("identity_provider", VDict member)])
                 http_client.CREATED) /\
      PyDict.get "id" member = Some (VStr idp_id) /\
      PyDict.get "enabled" member = Some enabled) /\
   forall req',
     policy_allows E "identity:get_identity_provider" req' = true ->
     exists member',
       (IdentityProvidersResource._get_idp E req' idp_id s').1
       = inr (Body (VDict [("identity_provider", VDict member')])) /\
       PyDict.get "id" member' = Some (VStr idp_id) /\
       PyDict.get "enabled" member' = Some enabled).
Proof.
  intros Hpol Hbody Hschema Hnorm Henabled enabled.
  assert (Hdefault : PyDict.get "enabled" (PyDict.setdefault "enabled" (VBool false) d)
                     = Some enabled).
  { rewrite setdefault_get. by rewrite Henabled. }
  unfold IdentityProvidersResource.put. run.
  rewrite Hpol, Hbody. cbn beta iota. rewrite Hschema, Hnorm.
  unfold federation_api.create_idp. run.
  rewrite remote_ids_of_setdefault by done.
  set (idp := PyDict.setdefault "enabled" (VBool false) d) in *.
  set (ref := PyDict.set "id" (VStr idp_id) idp).
  assert (Hid : PyDict.get "id" ref = Some (VStr idp_id)).
  { unfold ref. by rewrite get_set, decide_True. }
  assert (Href : PyDict.get "enabled" ref = Some enabled).
  { unfold ref. by rewrite get_set, decide_False. }
  destruct (PyDict.get idp_id (idps (registry s))) as [old|] eqn:Hfree.
  { split; [|done]. exists idp. cbn [log]. by rewrite <- !app_assoc. }
  destruct (remote_ids_collide (remote_ids_of d) (idps (registry s))) eqn:Hcoll.
  { split; [|done]. exists idp. cbn [log]. by rewrite <- !app_assoc. }
  match goal with
  | |- context [wrap_member E ?c ref ?st] =>
      destruct (idp_wrap_member E ref st) as (member & -> & Hmember)
  end.
  split; [exists idp; cbn [log]; by rewrite <- !app_assoc|].
  intros _ _. split.
  - exists member. split; [done|].
    rewrite !Hmember by (by repeat constructor). done.
  - intros req' Hpol'. unfold IdentityProvidersResource._get_idp.
    unfold federation_api.get_idp. run. rewrite Hpol'.
    cbn [registry log with_idps idps]. rewrite get_set, decide_True by done.
    match goal with
    | |- context [wrap_member E ?c ref ?st] =>
        destruct (idp_wrap_member E ref st) as (member' & -> & Hmember')
    end.
    exists member'. split; [done|].
    rewrite !Hmember' by (by repeat constructor). done.
Qed.

Example idp_create_then_get :
  let req :=
    Demo.admin_request
      [("identity_provider", VDict [("description", VStr "corporate IdP")])] [] in
  let s' := (IdentityProvidersResource.put Demo.env req "idp1" Demo.fresh).2 in
  (IdentityProvidersResource._get_idp Demo.env req "idp1" s').1
  = inr (Body (VDict
      [("identity_provider",
        VDict [("description", VStr "corporate IdP");
               ("enabled", VBool false);
               ("id", VStr "idp1");
               ("links",
                VDict [("self", VStr "http://keystone/v3/OS-FEDERATION/identity_providers");
                       ("protocols",
                        VStr "http://keystone/v3/OS-FEDERATION/identity_providers/protocols")])])])).
Proof. reflexivity. Qed.

Lemma idp_create_defaults_enabled_witness :
  let req :=
    Demo.admin_request
      [("identity_provider", VDict [("description", VStr "corporate IdP")])] [] in
  let s' := (IdentityProvidersResource.put Demo.env req "idp1" Demo.fresh).2 in
  exists member',
    (IdentityProvidersResource._get_idp Demo.env req "idp1" s').1
    = inr (Body (VDict [("identity_provider", VDict member')])) /\
    PyDict.get "id" member' = Some (VStr "idp1") /\
    PyDict.get "enabled" member' = Some (VBool false).
Proof.
  intros req s'. subst s'.
  pose proof (idp_create_defaults_enabled Demo.env req "idp1"
                [("description", VStr "corporate IdP")]
                [("description", VStr "corporate IdP")]
                Demo.fresh eq_refl eq_refl eq_refl eq_refl eq_refl) as H.
  cbv zeta in H.
  destruct (IdentityProvidersResource.put Demo.env req "idp1" Demo.fresh) as [r s'].
  destruct H as [_ H]. destruct (H eq_refl eq_refl) as [_ Hget].
  exact (Hget req eq_refl).
Defined.

(** ** C7: the defaults on service provider create *)

(** C7. On a service provider create that passes the policy gate and the
    schema, and whose key normalisation leaves the ['enabled'] and the
    ['relay_state_prefix'] entries of the submitted document as they are:
    the record passed to the provider's [create_sp] has [enabled = False]
    when the document omits ['enabled'] and the configured
    [CONF.saml.relay_state_prefix] when it omits ['relay_state_prefix'], and
    the supplied values otherwise. When the id is free, the record stored
    under the id has these values and the create returns 201. *)
Theorem sp_create_defaults E req sp_id raw d s :
  policy_allows E "identity:create_service_provider" req = true ->
  get_or_empty (request_body_json req) "service_provider" = VDict raw ->
  schema_accepts E schema.service_provider_create (VDict raw) = true ->
  _normalize_dict E (VDict raw) = inr d ->
  PyDict.get "enabled" d = PyDict.get "enabled" raw ->
  PyDict.get "relay_state_prefix" d = PyDict.get "relay_state_prefix" raw ->
  let enabled := default (VBool false) (PyDict.get "enabled" raw) in
  let prefix :=
    default (CONF_saml_relay_state_prefix E) (PyDict.get "relay_state_prefix" raw) in
  let (r, s') := ServiceProvidersResource.put E req sp_id s in
  (exists sp,
     log s' = log s ++ [EvEnforce "identity:create_service_provider";
                        EvValidate schema.service_provider_create (VDict raw);
                        EvFederation "create_sp" [VStr sp_id; VDict sp]] /\
     PyDict.get "enabled" sp = Some enabled /\
     PyDict.get "relay_state_prefix" sp = Some prefix) /\
  (PyDict.get sp_id (sps (registry s)) = None ->
   exists stored member,
     PyDict.get sp_id (sps (registry s')) = Some stored /\
     PyDict.get "enabled" stored = Some enabled /\
     PyDict.get "relay_state_prefix" stored = Some prefix /\
     r = inr (BodyStatus (VDict [("service_provider", VDict member)])
                http_client.CREATED) /\
     PyDict.get "enabled" member = Some enabled /\
     PyDict.get "relay_state_prefix" member = Some prefix).
Proof.
  intros Hpol Hbody Hschema Hnorm Henabled Hprefix enabled prefix.
  set (sp := PyDict.setdefault "relay_state_prefix" (CONF_saml_relay_state_prefix E)
               (PyDict.setdefault "enabled" (VBool false) d)).
  assert (Hsp_enabled : PyDict.get "enabled" sp = Some enabled).
  { unfold sp. rewrite setdefault_get_ne by done.
    rewrite setdefault_get. by rewrite Henabled. }
  assert (Hsp_prefix : PyDict.get "relay_state_prefix" sp = Some prefix).
  { unfold sp. rewrite setdefault_get, setdefault_get_ne by done.
    by rewrite Hprefix. }
  unfold ServiceProvidersResource.put. run.
  rewrite Hpol, Hbody. cbn beta iota. rewrite Hschema, Hnorm.
  unfold federation_api.create_sp. run. fold sp.
  set (ref := PyDict.set "id" (VStr sp_id) sp).
  assert (Href_enabled : PyDict.get "enabled" ref = Some enabled).
  { unfold ref. by rewrite get_set, decide_False. }
  assert (Href_prefix : PyDict.get "relay_state_prefix" ref = Some prefix).
  { unfold ref. by rewrite get_set, decide_False. }
  destruct (PyDict.get sp_id (sps (registry s))) as [old|] eqn:Hfree.
  { split; [|done]. exists sp. cbn [log]. by rewrite <- !app_assoc. }
  match goal with
  | |- context [wrap_member E ?c ref ?st] =>
      destruct (sp_wrap_member E ref st) as (member & -> & Hmember)
  end.
  split; [exists sp; cbn [log]; by rewrite <- !app_assoc|].
  intros _. exists ref, member. cbn [registry with_sps sps].
  rewrite get_set, decide_True by done.
  rewrite !Hmember by (by repeat constructor). done.
Qed.

Lemma sp_create_defaults_witness :
  let req :=
    Demo.admin_request
      [("service_provider",
        VDict [("auth_url", VStr "https://sp/auth"); ("sp_url", VStr "https://sp");
               ("enabled", VBool true)])] [] in
  let s' := (ServiceProvidersResource.put Demo.env req "sp1" Demo.fresh).2 in
  exists stored,
    PyDict.get "sp1" (sps (registry s')) = Some stored /\
    PyDict.get "enabled" stored = Some (VBool true) /\
    PyDict.get "relay_state_prefix" stored = Some (VStr "ss:mem:").
Proof.
  intros req s'. subst s'.
  pose proof (sp_create_defaults Demo.env req "sp1"
                [("auth_url", VStr "https://sp/auth"); ("sp_url", VStr "https://sp");
                 ("enabled", VBool true)]
                [("auth_url", VStr "https://sp/auth"); ("sp_url", VStr "https://sp");
                 ("enabled", VBool true)]
                Demo.fresh eq_refl eq_refl eq_refl eq_refl eq_refl eq_refl) as H.
  cbv zeta in H.
  destruct (ServiceProvidersResource.put Demo.env req "sp1" Demo.fresh) as [r s'].
  destruct H as [_ H].
  destruct (H eq_refl) as (stored & member & Hstored & Hen & Hpre & _).
  exists stored. split; [exact Hstored|]. split; [exact Hen|exact Hpre].
Defined.

(** ** C8: the policy gate *)

Section log_grows.
Context {A B : Type}.

Lemma log_grows_ret (a : A) : log_grows (ret a).
Proof. intros s. exists []. unfold ret. simpl. by rewrite app_nil_r. Qed.

Lemma log_grows_raise e : log_grows (raise (A:=A) e).
Proof. intros s. exists []. unfold raise. simpl. by rewrite app_nil_r. Qed.

Lemma log_grows_lift (r : result A) : log_grows (lift r).
Proof. intros s. exists []. unfold lift. simpl. by rewrite app_nil_r. Qed.

Lemma log_grows_bind (m : M A) (k : A -> M B) :
  log_grows m -> (forall a, log_grows (k a)) -> log_grows (bind m k).
Proof.
  intros Hm Hk s. unfold bind. destruct (Hm s) as [rest Hrest].
  destruct (m s) as [[e|a] s1]; simpl in *; [by exists rest|].
  destruct (Hk a s1) as [rest' Hrest']. exists (rest ++ rest').
  by rewrite Hrest', Hrest, app_assoc.
Qed.

Lemma log_grows_try_except (m : M A) (h : exn -> M A) :
  log_grows m -> (forall e, log_grows (h e)) -> log_grows (try_except m h).
Proof.
  intros Hm Hh s. unfold try_except. destruct (Hm s) as [rest Hrest].
  destruct (m s) as [[e|a] s1]; simpl in *; [|by exists rest].
  destruct (Hh e s1) as [rest' Hrest']. exists (rest ++ rest').
  by rewrite Hrest', Hrest, app_assoc.
Qed.

End log_grows.

Lemma log_grows_for_each {A B} (f : A -> M B) xs :
  (forall x, log_grows (f x)) -> log_grows (for_each f xs).
Proof.
  intros Hf. induction xs as [|x xs IH]; simpl.
  - apply log_grows_ret.
  - apply log_grows_bind; [done|]. intros y.
    apply log_grows_bind; [done|]. intros ys. apply log_grows_ret.
Qed.

Lemma log_grows_emit ev : log_grows (emit ev).
Proof. intros s. by exists [ev]. Qed.

Lemma log_grows_get_registry : log_grows get_registry.
Proof. intros s. exists []. unfold get_registry. simpl. by rewrite app_nil_r. Qed.

Lemma log_grows_put_registry r : log_grows (put_registry r).
Proof. intros s. exists []. unfold put_registry. simpl. by rewrite app_nil_r. Qed.

Create HintDb log_grows.

#[local] Hint Resolve log_grows_ret log_grows_raise log_grows_lift log_grows_emit
  log_grows_get_registry log_grows_put_registry : log_grows.

(** Every branch of a computation written with the operations of the monad
    appends to the log. *)
Ltac log_grows_step :=
  match goal with
  | |- forall _, _ => intro
  | |- log_grows (bind _ _) => apply log_grows_bind
  | |- log_grows (try_except _ _) => apply log_grows_try_except
  | |- log_grows (for_each _ _) => apply log_grows_for_each
  | |- log_grows (match ?x with _ => _ end) => destruct x
  | |- log_grows _ => solve [auto with log_grows]
  end.

Ltac log_grows_tac := cbv zeta; repeat log_grows_step.

Lemma log_grows_wrap_member E cls ref : log_grows (wrap_member E cls ref).
Proof. unfold wrap_member. log_grows_tac. Qed.

Lemma log_grows_relate_collection cls collection :
  log_grows (relate_collection cls collection).
Proof. unfold relate_collection. log_grows_tac. Qed.

Lemma log_grows_as_dict v : log_grows (as_dict v).
Proof. unfold as_dict. log_grows_tac. Qed.

Lemma log_grows_lazy_validate E sch doc : log_grows (lazy_validate E sch doc).
Proof. unfold lazy_validate. log_grows_tac. Qed.

Lemma log_grows_validate_mapping_structure E mapping :
  log_grows (validate_mapping_structure E mapping).
Proof. unfold validate_mapping_structure. log_grows_tac. Qed.

Lemma log_grows_assignment_call method f arg :
  log_grows (assignment_call method f arg).
Proof. unfold assignment_call. log_grows_tac. Qed.

#[local] Hint Resolve log_grows_wrap_member log_grows_relate_collection
  log_grows_as_dict log_grows_lazy_validate log_grows_validate_mapping_structure
  log_grows_assignment_call : log_grows.

(** The calls of the provider layer append to the log. *)
Ltac log_grows_provider :=
  unfold federation_api.get_idp, federation_api.list_idps,
    federation_api.create_idp, federation_api.update_idp,
    federation_api.delete_idp, federation_api.get_protocol,
    federation_api.list_protocols, federation_api.create_protocol,
    federation_api.update_protocol, federation_api.delete_protocol,
    federation_api.get_mapping, federation_api.list_mappings,
    federation_api.create_mapping, federation_api.update_mapping,
    federation_api.delete_mapping, federation_api.get_sp,
    federation_api.list_sps, federation_api.create_sp,
    federation_api.update_sp, federation_api.delete_sp;
  log_grows_tac.

(** An enforced operation is the call of the policy gate on its action,
    followed by a body that appends to the log. *)
Lemma enforced_operation E req op action :
  action_of op = Some action ->
  exists body,
    handle E req op = (enforce_call E req action ;;; body) /\ log_grows body.
Proof.
  intros Haction.
  destruct op; simplify_eq/=; (eexists; split; [reflexivity|]); log_grows_provider.
Qed.

(** C8 (as stated, at the federated auth POST of an anonymous request). The
    policy gate forbids every action of the request; the operation still
    submits the payload to the token pipeline and relays its response, and
    the gate is not invoked: the pipeline call is the only call made. *)
Lemma unenforced_auth_reaches_pipeline :
  let req := Demo.anonymous_request [] in
  (forall action, policy_allows Demo.env action req = false) /\
  exists f,
    handle Demo.env req (post_federated_auth "idp1" "saml2") Demo.fresh
    = (inr (Response f),
       {| registry := Demo.empty_registries;
          log := [EvAuthenticate (Request []) (generic_auth_payload "idp1" "saml2")] |}) /\
    flask_status_code f = 201.
Proof.
  split; [reflexivity|]. eexists. split; reflexivity.
Qed.

Example unenforced_metadata_reads_file :
  handle Demo.env (Demo.anonymous_request []) get_saml2_metadata Demo.fresh
  = (inr (Response
            {| flask_body := "<EntityDescriptor/>";
               flask_status_code := 200;
               flask_headers := [("Content-Type", "text/xml")] |}),
     {| registry := Demo.empty_registries;
        log := [EvOpen "/etc/keystone/saml2_idp_metadata.xml"] |}).
Proof. reflexivity. Qed.

(** C8 (amended). Every operation of the federation surface that is not
    declared unenforced (the registry operations on identity providers,
    protocols, mappings and service providers, and the project and domain
    aggregations) invokes the policy gate on its action before anything
    else; when the gate forbids, the operation raises [ForbiddenAction], the
    registries are unchanged, and no call follows the one of the gate. *)
Theorem enforced_operations_pass_the_gate E req op action s :
  action_of op = Some action ->
  let (r, s') := handle E req op s in
  exists rest,
    log s' = log s ++ EvEnforce action :: rest /\
    (policy_allows E action req = false ->
     r = inl (ForbiddenAction action) /\ registry s' = registry s /\ rest = []).
Proof.
  intros Haction.
  destruct (enforced_operation E req op action Haction) as (body & -> & Hbody).
  run. destruct (policy_allows E action req).
  - destruct (Hbody {| registry := registry s;
                       log := log s ++ [EvEnforce action] |}) as [rest Hrest].
    destruct (body _) as [r s']. simpl in Hrest.
    exists rest. split; [|done]. by rewrite Hrest, <- app_assoc.
  - exists []. by split_and!.
Qed.

Lemma enforced_operations_pass_the_gate_witness :
  handle Demo.env
    (Demo.anonymous_request [("mapping", VDict [("rules", VList [])])])
    (create_mapping "m1") Demo.fresh
  = (inl (ForbiddenAction "identity:create_mapping"),
     {| registry := Demo.empty_registries;
        log := [EvEnforce "identity:create_mapping"] |}).
Proof.
  pose proof (enforced_operations_pass_the_gate Demo.env
                (Demo.anonymous_request [("mapping", VDict [("rules", VList [])])])
                (create_mapping "m1") "identity:create_mapping" Demo.fresh
                eq_refl) as H.
  destruct (handle _ _ _ _) as [r [reg lg]].
  destruct H as (rest & Hlog & Hforbid).
  destruct (Hforbid eq_refl) as (-> & Hreg & ->).
  simpl in Hlog, Hreg. by rewrite Hlog, Hreg.
Defined.

Example invalid_mapping_is_not_written :
  handle Demo.env
    (Demo.admin_request [("mapping", VDict [("rules", VList [])])] [])
    (create_mapping "m1") Demo.fresh
  = (inl ValidationError,
     {| registry := Demo.empty_registries;
        log := [EvEnforce "identity:create_mapping";
                EvValidateMapping [("rules", VList [])]] |}).
Proof. reflexivity. Qed.

(** * Further properties of the module *)

(** ** When combining two lists fails *)

Lemma dict_by_id_error xs acc e :
  dict_by_id xs acc = inl e <->
  exists pre x post,
    xs = pre ++ x :: post /\ Forall carries_id pre /\ id_key x = inl e.
Proof.
  revert acc. induction xs as [|y xs IH]; intros acc; simpl.
  - split; [done|]. intros (pre & x & post & Hxs & _). by destruct pre.
  - destruct (id_key y) as [e'|k] eqn:Hy.
    + split.
      * intros [= ->]. exists [], y, xs. by split_and!.
      * intros (pre & x & post & Hxs & Hpre & Hx).
        destruct pre as [|z pre]; simplify_eq/=; [congruence|].
        apply Forall_cons in Hpre as [[k Hk] _]. congruence.
    + rewrite IH. split.
      * intros (pre & x & post & -> & Hpre & Hx).
        exists (y :: pre), x, post. split_and!; [done| |done].
        apply Forall_cons. split; [by exists k|done].
      * intros (pre & x & post & Hxs & Hpre & Hx).
        destruct pre as [|z pre]; simplify_eq/=; [congruence|].
        apply Forall_cons in Hpre as [_ Hpre]. by exists pre, x, post.
Qed.

(** X1. [_combine_lists_uniquely a b] raises exactly when both lists are
    non-empty and some reference of [a + b] has no usable ['id']; the
    exception is that of the first such reference ([KeyError] for a missing
    ['id'], [TypeError] for an unhashable one). With an empty list no
    ['id'] is looked up. *)
Theorem combine_lists_uniquely_raises (a b : list dict) e :
  _combine_lists_uniquely a b = inl e <->
  a <> [] /\ b <> [] /\
  exists pre x post,
    a ++ b = pre ++ x :: post /\ Forall carries_id pre /\ id_key x = inl e.
Proof.
  unfold _combine_lists_uniquely.
  destruct a as [|x a]; [simpl; split; [done|by intros [? _]]|].
  destruct b as [|y b]; [simpl; split; [done|by intros (_ & ? & _)]|].
  cbn [list_truthy andb]. rewrite <- dict_by_id_error with (acc := []).
  destruct (dict_by_id _ _) as [e'|d]; split.
  - intros [= ->]. by split_and!.
  - by intros (_ & _ & [= ->]).
  - done.
  - by intros (_ & _ & ?).
Qed.

Lemma combine_lists_uniquely_raises_witness :
  _combine_lists_uniquely
    [[("id", VStr "p1")]] [[("name", VStr "orphan")]; [("id", VStr "p2")]]
  = inl (KeyError "id") /\
  _combine_lists_uniquely [] [[("name", VStr "orphan")]]
  = inr [[("name", VStr "orphan")]].
Proof.
  split; [|reflexivity].
  apply combine_lists_uniquely_raises. split_and!; [discriminate|discriminate|].
  exists [[("id", VStr "p1")]], [("name", VStr "orphan")], [[("id", VStr "p2")]].
  split_and!; [reflexivity| |reflexivity].
  repeat constructor. eexists. reflexivity.
Defined.

(** ** Combining lists without a common id *)

Lemma set_fresh {K V} `{EqDecision K} (d : list (K * V)) k v :
  PyDict.get k d = None -> PyDict.set k v d = d ++ [(k, v)].
Proof.
  induction d as [|[k0 v0] d IH]; simpl; [done|].
  case_decide; [done|]. intros Hg. by rewrite IH.
Qed.

Lemma dict_by_id_distinct xs (acc : list (key * dict)) :
  Forall carries_id xs ->
  NoDup (PyDict.keys acc ++ ids xs) ->
  exists d, dict_by_id xs acc = inr d /\
            PyDict.values d = PyDict.values acc ++ xs.
Proof.
  intros Hxs. revert acc.
  induction Hxs as [|x xs [k Hk] _ IH]; intros acc Hnd; simpl.
  - exists acc. by rewrite app_nil_r.
  - rewrite Hk. unfold ids in Hnd. cbn [omap list_omap] in Hnd.
    rewrite Hk in Hnd. fold (ids xs) in Hnd.
    assert (Hfresh : PyDict.get k acc = None).
    { apply get_None_keys. intros Hin.
      apply NoDup_app in Hnd as (_ & Hdisj & _).
      apply (Hdisj k Hin). left. }
    rewrite set_fresh by done.
    destruct (IH (acc ++ [(k, x)])) as (d & Hd & Hvals).
    { unfold PyDict.keys. rewrite fmap_app. simpl.
      rewrite <- app_assoc. exact Hnd. }
    exists d. split; [done|]. rewrite Hvals. unfold PyDict.values.
    rewrite fmap_app. simpl. by rewrite <- app_assoc.
Qed.

(** X2. When both lists are non-empty, every reference carries an ['id']
    and no id occurs twice in [a + b], nothing is dropped: the result holds
    exactly the references of [a] and of [b], each once. *)
Theorem combine_lists_uniquely_distinct (a b : list dict) :
  a <> [] -> b <> [] ->
  Forall carries_id (a ++ b) ->
  NoDup (ids (a ++ b)) ->
  exists r, _combine_lists_uniquely a b = inr r /\ r ≡ₚ a ++ b.
Proof.
  intros Ha Hb Hids Hnd. unfold _combine_lists_uniquely.
  destruct a as [|x a]; [done|]. destruct b as [|y b]; [done|].
  cbn [list_truthy andb].
  destruct (dict_by_id_distinct ((x :: a) ++ y :: b) []) as (d & -> & Hvals);
    [done|done|].
  exists (PyDict.values d). split; [done|]. by rewrite Hvals.
Qed.

Lemma combine_lists_uniquely_distinct_witness :
  exists r,
    _combine_lists_uniquely
      [[("id", VStr "p1")]; [("id", VStr "p2")]] [[("id", VStr "p3")]]
    = inr r /\
    r ≡ₚ [[("id", VStr "p1")]; [("id", VStr "p2")]; [("id", VStr "p3")]].
Proof.
  apply (combine_lists_uniquely_distinct
           [[("id", VStr "p1")]; [("id", VStr "p2")]] [[("id", VStr "p3")]]).
  - discriminate.
  - discriminate.
  - repeat constructor; eexists; reflexivity.
  - vm_compute. repeat constructor; intros Hin;
      repeat (apply elem_of_cons in Hin as [Hin|Hin]; [discriminate|]);
      by apply elem_of_nil in Hin.
Defined.

(** ** The related links of a reference *)

Lemma set_set {K V} `{EqDecision K} (d : list (K * V)) k v v' :
  PyDict.set k v (PyDict.set k v' d) = PyDict.set k v d.
Proof.
  induction d as [|[k0 v0] d IH]; simpl.
  - by rewrite decide_True.
  - case_decide; simpl.
    + by rewrite decide_True.
    + rewrite decide_False by done. by rewrite IH.
Qed.

Lemma keys_set_present {K V} `{EqDecision K} (d : list (K * V)) k v w :
  PyDict.get k d = Some w -> PyDict.keys (PyDict.set k v d) = PyDict.keys d.
Proof. intros Hg. rewrite keys_set. by rewrite Hg. Qed.

(** X3. On a reference of an identity provider whose ['links'] hold a
    string under ['self'], [_add_related_links] succeeds and sets
    [links['protocols']] to the self link followed by ["/protocols"]; the
    other links, the other entries of the reference and the order of its
    keys are as before, and adding the links a second time changes
    nothing. *)
Theorem idp_add_related_links E (ref ls : dict) (self : string) :
  PyDict.get "links" ref = Some (VDict ls) ->
  PyDict.get "self" ls = Some (VStr self) ->
  exists ref' ls',
    IdentityProvidersResource._add_related_links E ref = inr ref' /\
    PyDict.get "links" ref' = Some (VDict ls') /\
    PyDict.get "protocols" ls' = Some (VStr (self +:+ "/protocols")) /\
    (forall name, name <> "protocols" -> PyDict.get name ls' = PyDict.get name ls) /\
    (forall k, k <> "links" -> PyDict.get k ref' = PyDict.get k ref) /\
    PyDict.keys ref' = PyDict.keys ref /\
    IdentityProvidersResource._add_related_links E ref' = inr ref'.
Proof.
  intros Hlinks Hself.
  set (ls' := PyDict.set "protocols" (VStr (self +:+ "/protocols")) ls).
  set (ref' := PyDict.set "links" (VDict ls') ref).
  assert (Hrun : forall (r l : dict),
             PyDict.get "links" r = Some (VDict l) ->
             PyDict.get "self" l = Some (VStr self) ->
             IdentityProvidersResource._add_related_links E r
             = inr (PyDict.set "links"
                      (VDict (PyDict.set "protocols"
                                (VStr (self +:+ "/protocols")) l)) r)).
  { intros r l Hr Hl. unfold IdentityProvidersResource._add_related_links.
    rewrite Hr. cbn [py_get]. rewrite Hl. reflexivity. }
  assert (Hlinks' : PyDict.get "links" ref' = Some (VDict ls')).
  { unfold ref'. by rewrite get_set, decide_True. }
  exists ref', ls'. split_and!.
  - by apply Hrun.
  - done.
  - unfold ls'. by rewrite get_set, decide_True.
  - intros name Hname. unfold ls'. by rewrite get_set, decide_False.
  - intros k Hk. unfold ref'. by rewrite get_set, decide_False.
  - unfold ref'. by eapply keys_set_present.
  - rewrite (Hrun ref' ls' Hlinks').
    + unfold ref', ls'. by rewrite !set_set.
    + unfold ls'. by rewrite get_set, decide_False.
Qed.

Lemma idp_add_related_links_witness :
  IdentityProvidersResource._add_related_links Demo.env
    [("id", VStr "idp1");
     ("links", VDict [("self", VStr "http://keystone/v3/OS-FEDERATION/identity_providers/idp1")])]
  = inr [("id", VStr "idp1");
         ("links",
          VDict [("self", VStr "http://keystone/v3/OS-FEDERATION/identity_providers/idp1");
                 ("protocols",
                  VStr "http://keystone/v3/OS-FEDERATION/identity_providers/idp1/protocols")])].
Proof.
  destruct (idp_add_related_links Demo.env
              [("id", VStr "idp1");
               ("links", VDict [("self", VStr "http://keystone/v3/OS-FEDERATION/identity_providers/idp1")])]
              [("self", VStr "http://keystone/v3/OS-FEDERATION/identity_providers/idp1")]
              "http://keystone/v3/OS-FEDERATION/identity_providers/idp1"
              eq_refl eq_refl) as (ref' & ls' & Hrun & _).
  reflexivity.
Defined.

(** X4. The failures of [_add_related_links] on a reference of an identity
    provider: [KeyError] without ['links']; [AttributeError] when ['links']
    is not a dictionary; [TypeError] when the self link is neither a string
    nor [None]; and, when there is no self link, [KeyError] without
    ['id']. *)
Theorem idp_add_related_links_errors E (ref : dict) :
  (PyDict.get "links" ref = None ->
   IdentityProvidersResource._add_related_links E ref = inl (KeyError "links")) /\
  (forall links,
     PyDict.get "links" ref = Some links ->
     (forall ls, links <> VDict ls) ->
     IdentityProvidersResource._add_related_links E ref = inl AttributeError) /\
  (forall ls v,
     PyDict.get "links" ref = Some (VDict ls) ->
     PyDict.get "self" ls = Some v ->
     v <> VNone -> (forall s, v <> VStr s) ->
     IdentityProvidersResource._add_related_links E ref = inl TypeError) /\
  (forall ls,
     PyDict.get "links" ref = Some (VDict ls) ->
     default VNone (PyDict.get "self" ls) = VNone ->
     PyDict.get "id" ref = None ->
     IdentityProvidersResource._add_related_links E ref = inl (KeyError "id")).
Proof.
  unfold IdentityProvidersResource._add_related_links. split_and!.
  - by intros ->.
  - intros links -> Hnot. destruct links; try done. by destruct (Hnot d).
  - intros ls v -> Hv Hnone Hstr. cbn [py_get]. rewrite Hv. cbn [default].
    destruct v; try done. by destruct (Hstr s).
  - intros ls -> Hself Hid. cbn [py_get]. rewrite Hself, Hid. done.
Qed.

Lemma idp_add_related_links_errors_witness :
  IdentityProvidersResource._add_related_links Demo.env [("id", VStr "idp1")]
  = inl (KeyError "links") /\
  IdentityProvidersResource._add_related_links Demo.env
    [("id", VStr "idp1"); ("links", VStr "http://keystone/v3")]
  = inl AttributeError /\
  IdentityProvidersResource._add_related_links Demo.env
    [("links", VDict [("self", VInt 7)])]
  = inl TypeError /\
  IdentityProvidersResource._add_related_links Demo.env [("links", VDict [])]
  = inl (KeyError "id").
Proof.
  split_and!.
  - by apply (idp_add_related_links_errors Demo.env [("id", VStr "idp1")]).
  - by eapply (idp_add_related_links_errors Demo.env
                 [("id", VStr "idp1"); ("links", VStr "http://keystone/v3")]).
  - by eapply (idp_add_related_links_errors Demo.env
                 [("links", VDict [("self", VInt 7)])]).
  - by eapply (idp_add_related_links_errors Demo.env [("links", VDict [])]).
Defined.






(** X6. On a reference of a protocol that carries its ['idp_id'], and whose
    ['links'], if any, are a dictionary, [_add_related_links] succeeds and
    sets [links['identity_provider']] to the base URL of the identity
    provider; the links already there and the other entries of the
    reference are as before, and adding the links a second time changes
    nothing. *)
Theorem protocol_add_related_links E (ref : dict) (idp : value) :
  PyDict.get "idp_id" ref = Some idp ->
  (forall v, PyDict.get "links" ref = Some v -> exists ls, v = VDict ls) ->
  let old := match PyDict.get "links" ref with Some (VDict ls) => ls | _ => [] end in
  exists ref' ls',
    IdentityProvidersProtocolsResource._add_related_links E ref = inr ref' /\
    PyDict.get "links" ref' = Some (VDict ls') /\
    PyDict.get "identity_provider" ls' = Some (VStr (base_url E idp)) /\
    (forall name,
       name <> "identity_provider" -> PyDict.get name ls' = PyDict.get name old) /\
    (forall k, k <> "links" -> PyDict.get k ref' = PyDict.get k ref) /\
    IdentityProvidersProtocolsResource._add_related_links E ref' = inr ref'.
Proof.
  intros Hidp Hlinks old.
  set (ls' := PyDict.set "identity_provider" (VStr (base_url E idp)) old).
  set (ref' := PyDict.set "links" (VDict ls') ref).
  assert (Hrun : forall (r l : dict),
             PyDict.get "idp_id" r = Some idp ->
             PyDict.get "links" r = Some (VDict l) ->
             IdentityProvidersProtocolsResource._add_related_links E r
             = inr (PyDict.set "links"
                      (VDict (PyDict.set "identity_provider"
                                (VStr (base_url E idp)) l)) r)).
  { intros r l Hr Hl.
    unfold IdentityProvidersProtocolsResource._add_related_links,
      PyDict.setdefault.
    by rewrite Hl, Hr, Hl. }
  assert (Hfirst : IdentityProvidersProtocolsResource._add_related_links E ref
                   = inr ref').
  { destruct (PyDict.get "links" ref) as [v|] eqn:Hl.
    - destruct (Hlinks v eq_refl) as [ls ->]. by apply Hrun.
    - unfold IdentityProvidersProtocolsResource._add_related_links,
        PyDict.setdefault.
      rewrite Hl. rewrite !get_set, decide_False, decide_True, Hidp by done.
      unfold ref', ls', old. by rewrite set_set. }
  assert (Hlinks' : PyDict.get "links" ref' = Some (VDict ls')).
  { unfold ref'. by rewrite get_set, decide_True. }
  exists ref', ls'. split_and!; [done|done| | | |].
  - unfold ls'. by rewrite get_set, decide_True.
  - intros name Hname. unfold ls'. by rewrite get_set, decide_False.
  - intros k Hk. unfold ref'. by rewrite get_set, decide_False.
  - rewrite (Hrun ref' ls'); [|unfold ref'; by rewrite get_set, decide_False|done].
    unfold ref', ls'. by rewrite !set_set.
Qed.

Lemma protocol_add_related_links_witness :
  IdentityProvidersProtocolsResource._add_related_links Demo.env
    [("id", VStr "saml2"); ("idp_id", VStr "idp1"); ("mapping_id", VStr "m1")]
  = inr [("id", VStr "saml2"); ("idp_id", VStr "idp1"); ("mapping_id", VStr "m1");
         ("links", VDict [("identity_provider", VStr "http://keystone/v3/idp1")])].
Proof.
  destruct (protocol_add_related_links Demo.env
              [("id", VStr "saml2"); ("idp_id", VStr "idp1");
               ("mapping_id", VStr "m1")]
              (VStr "idp1") eq_refl) as (ref' & ls' & Hrun & _).
  - intros v Hv. discriminate Hv.
  - reflexivity.
Defined.

(** X7. The failures of [_add_related_links] on a reference of a protocol:
    [KeyError] without ['idp_id'], whatever the links; [TypeError] when
    ['links'] is there and is not a dictionary. *)
Theorem protocol_add_related_links_errors E (ref : dict) :
  (PyDict.get "idp_id" ref = None ->
   IdentityProvidersProtocolsResource._add_related_links E ref
   = inl (KeyError "idp_id")) /\
  (forall idp links,
     PyDict.get "idp_id" ref = Some idp ->
     PyDict.get "links" ref = Some links ->
     (forall ls, links <> VDict ls) ->
     IdentityProvidersProtocolsResource._add_related_links E ref = inl TypeError).
Proof.
  unfold IdentityProvidersProtocolsResource._add_related_links. split.
  - intros Hidp. rewrite setdefault_get_ne by done. by rewrite Hidp.
  - intros idp links Hidp Hlinks Hnot.
    rewrite setdefault_get_ne, Hidp, setdefault_get, Hlinks by done.
    destruct links; try done. by destruct (Hnot d).
Qed.

Lemma protocol_add_related_links_errors_witness :
  IdentityProvidersProtocolsResource._add_related_links Demo.env
    [("id", VStr "saml2")]
  = inl (KeyError "idp_id") /\
  IdentityProvidersProtocolsResource._add_related_links Demo.env
    [("idp_id", VStr "idp1"); ("links", VNone)]
  = inl TypeError.
Proof.
  split.
  - by apply (protocol_add_related_links_errors Demo.env [("id", VStr "saml2")]).
  - by eapply (protocol_add_related_links_errors Demo.env
                 [("idp_id", VStr "idp1"); ("links", VNone)]).
Defined.

(** ** Documents that fail their schema *)

(** X8. On the six operations that validate their document against a schema
    (create and update of identity providers, protocols and service
    providers), a document the schema rejects makes the operation raise
    the validation error right after the policy gate: the document is not
    normalised, the provider layer is not called and the registries are
    unchanged. *)
Theorem schema_rejection_aborts E req op action sch key s :
  action_of op = Some action ->
  validated_document op = Some (sch, key) ->
  policy_allows E action req = true ->
  schema_accepts E sch (get_or_empty (request_body_json req) key) = false ->
  handle E req op s
  = (inl ValidationError,
     {| registry := registry s;
        log := log s ++ [EvEnforce action;
                         EvValidate sch (get_or_empty (request_body_json req) key)] |}).
Proof.
  intros Haction Hdoc Hpol Hschema.
  destruct op; simplify_eq/=;
    unfold IdentityProvidersResource.put, IdentityProvidersResource.patch,
      IdentityProvidersProtocolsResource.put,
      IdentityProvidersProtocolsResource.patch,
      ServiceProvidersResource.put, ServiceProvidersResource.patch;
    run; rewrite Hpol; cbn beta iota; rewrite Hschema; cbn [registry log];
    by rewrite <- app_assoc.
Qed.

Lemma schema_rejection_aborts_witness :
  handle Demo.env
    (Demo.admin_request [("service_provider", VStr "not an object")] [])
    (create_service_provider "sp1") Demo.fresh
  = (inl ValidationError,
     {| registry := Demo.empty_registries;
        log := [EvEnforce "identity:create_service_provider";
                EvValidate schema.service_provider_create (VStr "not an object")] |}).
Proof.
  exact (schema_rejection_aborts Demo.env
           (Demo.admin_request [("service_provider", VStr "not an object")] [])
           (create_service_provider "sp1") "identity:create_service_provider"
           schema.service_provider_create "service_provider" Demo.fresh
           eq_refl eq_refl eq_refl eq_refl).
Defined.

(** ** What an update hands to the provider layer *)

(** X9. An update of an identity provider or of a service provider hands the
    normalised document to the provider layer as it is: unlike on create, no
    default ([enabled], [relay_state_prefix]) is added to it. *)
Theorem update_adds_no_default E req id (d : dict) s :
  (policy_allows E "identity:update_identity_provider" req = true ->
   schema_accepts E schema.identity_provider_update
     (get_or_empty (request_body_json req) "identity_provider") = true ->
   _normalize_dict E (get_or_empty (request_body_json req) "identity_provider")
   = inr d ->
   log (IdentityProvidersResource.patch E req id s).2
   = log s ++ [EvEnforce "identity:update_identity_provider";
               EvValidate schema.identity_provider_update
                 (get_or_empty (request_body_json req) "identity_provider");
               EvFederation "update_idp" [VStr id; VDict d]]) /\
  (policy_allows E "identity:update_service_provider" req = true ->
   schema_accepts E schema.service_provider_update
     (get_or_empty (request_body_json req) "service_provider") = true ->
   _normalize_dict E (get_or_empty (request_body_json req) "service_provider")
   = inr d ->
   log (ServiceProvidersResource.patch E req id s).2
   = log s ++ [EvEnforce "identity:update_service_provider";
               EvValidate schema.service_provider_update
                 (get_or_empty (request_body_json req) "service_provider");
               EvFederation "update_sp" [VStr id; VDict d]]).
Proof.
  split; intros Hpol Hschema Hnorm.
  - unfold IdentityProvidersResource.patch, federation_api.update_idp. run.
    rewrite Hpol. cbn beta iota. rewrite Hschema, Hnorm. cbn [registry log].
    destruct (PyDict.get id (idps (registry s))) as [old|];
      [destruct (remote_ids_collide _ _)|]; cbn [registry log snd];
      try (by rewrite <- !app_assoc).
    lazymatch goal with
    | |- context [wrap_member E ?c ?r ?st] =>
        destruct (idp_wrap_member E r st) as (member & Hwrap & _); rewrite Hwrap
    end.
    cbn [registry log snd]. by rewrite <- !app_assoc.
  - unfold ServiceProvidersResource.patch, federation_api.update_sp. run.
    rewrite Hpol. cbn beta iota. rewrite Hschema, Hnorm. cbn [registry log].
    destruct (PyDict.get id (sps (registry s))) as [old|];
      cbn [registry log snd]; by rewrite <- !app_assoc.
Qed.

Lemma update_adds_no_default_witness :
  log (ServiceProvidersResource.patch Demo.env
         (Demo.admin_request
            [("service_provider", VDict [("description", VStr "renamed")])] [])
         "sp1" Demo.fresh).2
  = [EvEnforce "identity:update_service_provider";
     EvValidate schema.service_provider_update
       (VDict [("description", VStr "renamed")]);
     EvFederation "update_sp"
       [VStr "sp1"; VDict [("description", VStr "renamed")]]].
Proof.
  exact (proj2 (update_adds_no_default Demo.env
                  (Demo.admin_request
                     [("service_provider", VDict [("description", VStr "renamed")])] [])
                  "sp1" [("description", VStr "renamed")] Demo.fresh)
           eq_refl eq_refl eq_refl).
Defined.

(** X10. An update of a protocol hands the document of the request body to
    the provider layer as it is: [patch] does not call [_normalize_dict],
    unlike [put]. *)
Theorem protocol_update_skips_normalisation E req idp_id protocol_id (raw : dict) s :
  policy_allows E "identity:update_protocol" req = true ->
  get_or_empty (request_body_json req) "protocol" = VDict raw ->
  schema_accepts E schema.protocol_update (VDict raw) = true ->
  log (IdentityProvidersProtocolsResource.patch E req idp_id protocol_id s).2
  = log s ++ [EvEnforce "identity:update_protocol";
              EvValidate schema.protocol_update (VDict raw);
              EvFederation "update_protocol"
                [VStr idp_id; VStr protocol_id; VDict raw]].
Proof.
  intros Hpol Hbody Hschema.
  unfold IdentityProvidersProtocolsResource.patch,
    federation_api.update_protocol, as_dict. run.
  rewrite Hpol, Hbody. cbn beta iota. rewrite Hschema. run.
  destruct (PyDict.get idp_id (idps (registry s))) as [idp|];
    [destruct (PyDict.get (idp_id, protocol_id) (protocols (registry s))) as [old|]|];
    cbn [registry log snd]; try (by rewrite <- !app_assoc).
  unfold wrap_member. run.
  destruct (_add_related_links _ _); cbn [registry log snd];
    by rewrite <- !app_assoc.
Qed.

Lemma protocol_update_skips_normalisation_witness :
  log (IdentityProvidersProtocolsResource.patch Demo.env
         (Demo.admin_request [("protocol", VDict [("mapping-id", VStr "m2")])] [])
         "idp1" "saml2" Demo.fresh).2
  = [EvEnforce "identity:update_protocol";
     EvValidate schema.protocol_update (VDict [("mapping-id", VStr "m2")]);
     EvFederation "update_protocol"
       [VStr "idp1"; VStr "saml2"; VDict [("mapping-id", VStr "m2")]]].
Proof.
  exact (protocol_update_skips_normalisation Demo.env
           (Demo.admin_request [("protocol", VDict [("mapping-id", VStr "m2")])] [])
           "idp1" "saml2" [("mapping-id", VStr "m2")] Demo.fresh
           eq_refl eq_refl eq_refl).
Defined.

(** ** The lookups of the aggregation *)

Ltac aggregation_trace Hpol Hctx :=
  run; rewrite Hpol, Hctx; unfold aggregation_lookups; simpl;
  repeat match goal with
         | |- context [truthy ?v] => destruct (truthy v)
         | |- context [list_projects_for_user ?E ?v] =>
             destruct (list_projects_for_user E v) as [[]|?]
         | |- context [list_projects_for_groups ?E ?v] =>
             destruct (list_projects_for_groups E v) as [?|?]
         | |- context [list_domains_for_user ?E ?v] =>
             destruct (list_domains_for_user E v) as [[]|?]
         | |- context [list_domains_for_groups ?E ?v] =>
             destruct (list_domains_for_groups E v) as [?|?]
         | |- context [_combine_lists_uniquely ?a ?b] =>
             destruct (_combine_lists_uniquely a b)
         end;
  cbn [registry log snd app andb]; rewrite <- ?app_assoc; reflexivity.

(** X11. Once the policy gate has allowed it, an aggregation over an auth
    context makes no other call than its assignment lookups: the user lookup
    only for a truthy [user_id], then the group lookup only for truthy
    [group_ids] and only if the user lookup did not raise another error than
    [UserNotFound]. The registries are untouched. *)
Theorem aggregation_trace E req (ctx : dict) s :
  PyDict.get (AUTH_CONTEXT_ENV E) (environ req) = Some (VDict ctx) ->
  let user_id := default VNone (PyDict.get "user_id" ctx) in
  let group_ids := default VNone (PyDict.get "group_ids" ctx) in
  (policy_allows E "identity:get_auth_projects" req = true ->
   (OSFederationProjectResource.get E req s).2
   = {| registry := registry s;
        log := log s ++ EvEnforce "identity:get_auth_projects"
                 :: aggregation_lookups "list_projects_for_user"
                      "list_projects_for_groups" (list_projects_for_user E)
                      user_id group_ids |}) /\
  (policy_allows E "identity:get_auth_domains" req = true ->
   (OSFederationDomainResource.get E req s).2
   = {| registry := registry s;
        log := log s ++ EvEnforce "identity:get_auth_domains"
                 :: aggregation_lookups "list_domains_for_user"
                      "list_domains_for_groups" (list_domains_for_user E)
                      user_id group_ids |}).
Proof.
  intros Hctx user_id group_ids. subst user_id group_ids. split; intros Hpol.
  - unfold OSFederationProjectResource.get. aggregation_trace Hpol Hctx.
  - unfold OSFederationDomainResource.get. aggregation_trace Hpol Hctx.
Qed.

Lemma aggregation_trace_witness :
  (* no user id: only the group lookup *)
  log (OSFederationProjectResource.get Demo.env
         (Demo.admin_request [] [("user_id", VNone); ("group_ids", VList [VStr "devs"])])
         Demo.fresh).2
  = [EvEnforce "identity:get_auth_projects";
     EvAssignment "list_projects_for_groups" (VList [VStr "devs"])] /\
  (* a failing user lookup: the group lookup is not reached *)
  log (OSFederationDomainResource.get Demo.env
         (Demo.admin_request []
            [("user_id", VStr "mallory"); ("group_ids", VList [VStr "devs"])])
         Demo.fresh).2
  = [EvEnforce "identity:get_auth_domains";
     EvAssignment "list_domains_for_user" (VStr "mallory")].
Proof.
  split.
  - destruct (aggregation_trace Demo.env
                (Demo.admin_request []
                   [("user_id", VNone); ("group_ids", VList [VStr "devs"])])
                [("user_id", VNone); ("group_ids", VList [VStr "devs"])]
                Demo.fresh eq_refl) as [Hprojects _].
    by rewrite (Hprojects eq_refl).
  - destruct (aggregation_trace Demo.env
                (Demo.admin_request []
                   [("user_id", VStr "mallory"); ("group_ids", VList [VStr "devs"])])
                [("user_id", VStr "mallory"); ("group_ids", VList [VStr "devs"])]
                Demo.fresh eq_refl) as [_ Hdomains].
    by rewrite (Hdomains eq_refl).
Defined.

(** X12. When the WSGI environment carries no auth context, or one that is
    not a dictionary, both aggregations raise [AttributeError] right after
    the policy gate ([auth_context.get] on [None]): no lookup is made. *)
Theorem aggregation_without_auth_context E req s :
  (forall ctx, PyDict.get (AUTH_CONTEXT_ENV E) (environ req) <> Some (VDict ctx)) ->
  (policy_allows E "identity:get_auth_projects" req = true ->
   OSFederationProjectResource.get E req s
   = (inl AttributeError,
      {| registry := registry s;
         log := log s ++ [EvEnforce "identity:get_auth_projects"] |})) /\
  (policy_allows E "identity:get_auth_domains" req = true ->
   OSFederationDomainResource.get E req s
   = (inl AttributeError,
      {| registry := registry s;
         log := log s ++ [EvEnforce "identity:get_auth_domains"] |})).
Proof.
  intros Hctx. split; intros Hpol.
  - unfold OSFederationProjectResource.get. run. rewrite Hpol.
    destruct (PyDict.get (AUTH_CONTEXT_ENV E) (environ req)) as [[]|] eqn:Hget;
      try done. by destruct (Hctx d).
  - unfold OSFederationDomainResource.get. run. rewrite Hpol.
    destruct (PyDict.get (AUTH_CONTEXT_ENV E) (environ req)) as [[]|] eqn:Hget;
      try done. by destruct (Hctx d).
Qed.

Lemma aggregation_without_auth_context_witness :
  OSFederationProjectResource.get Demo.env
    {| environ := [("is_admin", VBool true)]; request_body_json := [] |}
    Demo.fresh
  = (inl AttributeError,
     {| registry := Demo.empty_registries;
        log := [EvEnforce "identity:get_auth_projects"] |}).
Proof.
  apply (aggregation_without_auth_context Demo.env
           {| environ := [("is_admin", VBool true)]; request_body_json := [] |}
           Demo.fresh).
  - intros ctx. discriminate.
  - reflexivity.
Defined.

(** ** The metadata document and the authentication bridge, on failure *)



(** X13. The metadata operation turns only an [IOError] of the read into
    [MetadataFileError]: any other exception of the read is raised
    unchanged. In both cases nothing but the read is attempted. *)
Theorem metadata_get_other_errors E s e :
  read_file E (CONF_saml_idp_metadata_path E) = inl e ->
  (forall reason, e <> IOError reason) ->
  SAML2MetadataResource.get E s
  = (inl e,
     {| registry := registry s;
        log := log s ++ [EvOpen (CONF_saml_idp_metadata_path E)] |}).
Proof.
  intros Hread Hnot. unfold SAML2MetadataResource.get. run. rewrite Hread.
  destruct e; try done. by destruct (Hnot reason).
Qed.


(** X15. When the token pipeline raises, the authentication bridge raises
    the same exception: the pipeline has been called once, no response is
    built and nothing is retried. *)
Theorem auth_pipeline_error E req idp_id protocol_id s e :
  authenticate_for_token E (Request (environ req))
    (OSFederationAuthResource.auth_payload idp_id protocol_id) = inl e ->
  OSFederationAuthResource._auth E req idp_id protocol_id s
  = (inl e,
     {| registry := registry s;
        log := log s ++ [EvAuthenticate (Request (environ req))
                           (OSFederationAuthResource.auth_payload idp_id protocol_id)] |}).
Proof.
  intros Hfail. unfold OSFederationAuthResource._auth,
    OSFederationAuthResource._construct_webob_request.
  run. by rewrite Hfail.
Qed.

Lemma metadata_get_other_errors_witness :
  SAML2MetadataResource.get
    (failing_env (OtherError "UnicodeDecodeError") (OtherError "Unauthorized"))
    Demo.fresh
  = (inl (OtherError "UnicodeDecodeError"),
     {| registry := Demo.empty_registries;
        log := [EvOpen "/etc/keystone/saml2_idp_metadata.xml"] |}).
Proof.
  apply (metadata_get_other_errors
           (failing_env (OtherError "UnicodeDecodeError") (OtherError "Unauthorized"))
           Demo.fresh (OtherError "UnicodeDecodeError")).
  - reflexivity.
  - intros reason. discriminate.
Defined.


Lemma auth_pipeline_error_witness :
  OSFederationAuthResource._auth
    (failing_env (IOError "gone") (OtherError "Unauthorized"))
    (Demo.anonymous_request []) "idp1" "saml2" Demo.fresh
  = (inl (OtherError "Unauthorized"),
     {| registry := Demo.empty_registries;
        log := [EvAuthenticate (Request [])
                  (OSFederationAuthResource.auth_payload "idp1" "saml2")] |}).
Proof.
  apply (auth_pipeline_error
           (failing_env (IOError "gone") (OtherError "Unauthorized"))
           (Demo.anonymous_request []) "idp1" "saml2" Demo.fresh
           (OtherError "Unauthorized")).
  reflexivity.
Defined.

(** ** The calls an operation makes *)

Section emits.
Context (P : event -> bool) {A B : Type}.

Lemma emits_ret (a : A) : emits P (ret a).
Proof. intros s. exists []. unfold ret. simpl. by rewrite app_nil_r. Qed.

Lemma emits_raise e : emits P (raise (A:=A) e).
Proof. intros s. exists []. unfold raise. simpl. by rewrite app_nil_r. Qed.

Lemma emits_lift (r : result A) : emits P (lift r).
Proof. intros s. exists []. unfold lift. simpl. by rewrite app_nil_r. Qed.

Lemma emits_bind (m : M A) (k : A -> M B) :
  emits P m -> (forall a, emits P (k a)) -> emits P (bind m k).
Proof.
  intros Hm Hk s. unfold bind. destruct (Hm s) as (rest & Hrest & HP).
  destruct (m s) as [[e|a] s1]; simpl in *; [by exists rest|].
  destruct (Hk a s1) as (rest' & Hrest' & HP'). exists (rest ++ rest').
  split; [by rewrite Hrest', Hrest, app_assoc|by apply Forall_app].
Qed.

Lemma emits_try_except (m : M A) (h : exn -> M A) :
  emits P m -> (forall e, emits P (h e)) -> emits P (try_except m h).
Proof.
  intros Hm Hh s. unfold try_except. destruct (Hm s) as (rest & Hrest & HP).
  destruct (m s) as [[e|a] s1]; simpl in *; [|by exists rest].
  destruct (Hh e s1) as (rest' & Hrest' & HP'). exists (rest ++ rest').
  split; [by rewrite Hrest', Hrest, app_assoc|by apply Forall_app].
Qed.
End emits.

Lemma emits_for_each P {A B} (f : A -> M B) xs :
  (forall x, emits P (f x)) -> emits P (for_each f xs).
Proof.
  intros Hf. induction xs as [|x xs IH]; simpl.
  - apply emits_ret.
  - apply emits_bind; [done|]. intros y.
    apply emits_bind; [done|]. intros ys. apply emits_ret.
Qed.

Lemma emits_emit (P : event -> bool) ev : P ev = true -> emits P (emit ev).
Proof. intros HP s. exists [ev]. split; [done|]. by apply Forall_singleton. Qed.

Lemma emits_get_registry P : emits P get_registry.
Proof. intros s. exists []. unfold get_registry. simpl. by rewrite app_nil_r. Qed.

Lemma emits_put_registry P r : emits P (put_registry r).
Proof. intros s. exists []. unfold put_registry. simpl. by rewrite app_nil_r. Qed.

(** Every branch of a computation written with the operations of the monad
    emits events of [P] only, when its own events are. *)
Ltac emits_step :=
  match goal with
  | |- forall _, _ => intro
  | |- emits _ (bind _ _) => apply emits_bind
  | |- emits _ (try_except _ _) => apply emits_try_except
  | |- emits _ (for_each _ _) => apply emits_for_each
  | |- emits _ (emit _) => apply emits_emit; reflexivity
  | |- emits _ (ret _) => apply emits_ret
  | |- emits _ (raise _) => apply emits_raise
  | |- emits _ (lift _) => apply emits_lift
  | |- emits _ get_registry => apply emits_get_registry
  | |- emits _ (put_registry _) => apply emits_put_registry
  | |- emits _ (match ?x with _ => _ end) => destruct x
  end.

Ltac emits_tac :=
  unfold IdentityProvidersResource.get, IdentityProvidersResource._get_idp,
    IdentityProvidersResource._list_idps, IdentityProvidersResource.put,
    IdentityProvidersResource.patch, IdentityProvidersResource.delete,
    IdentityProvidersProtocolsResource.get,
    IdentityProvidersProtocolsResource._get_protocol,
    IdentityProvidersProtocolsResource._list_protocols,
    IdentityProvidersProtocolsResource.put,
    IdentityProvidersProtocolsResource.patch,
    IdentityProvidersProtocolsResource.delete,
    MappingResource.get, MappingResource._get_mapping,
    MappingResource._list_mappings, MappingResource.put,
    MappingResource.patch, MappingResource.delete,
    ServiceProvidersResource.get,
    ServiceProvidersResource._get_service_provider,
    ServiceProvidersResource._list_service_providers,
    ServiceProvidersResource.put, ServiceProvidersResource.patch,
    ServiceProvidersResource.delete,
    OSFederationProjectResource.get, OSFederationDomainResource.get,
    SAML2MetadataResource.get, OSFederationAuthResource.get,
    OSFederationAuthResource.post, OSFederationAuthResource._auth,
    federation_api.get_idp, federation_api.list_idps,
    federation_api.create_idp, federation_api.update_idp,
    federation_api.delete_idp, federation_api.get_protocol,
    federation_api.list_protocols, federation_api.create_protocol,
    federation_api.update_protocol, federation_api.delete_protocol,
    federation_api.get_mapping, federation_api.list_mappings,
    federation_api.create_mapping, federation_api.update_mapping,
    federation_api.delete_mapping, federation_api.get_sp,
    federation_api.list_sps, federation_api.create_sp,
    federation_api.update_sp, federation_api.delete_sp,
    enforce_call, lazy_validate, validate_mapping_structure, assignment_call,
    wrap_member, relate_collection, as_dict;
  cbv zeta; repeat emits_step.

(** The body that follows the call of the policy gate in an enforced
    operation does not call the gate. *)
Lemma enforced_operation_body E req op action :
  action_of op = Some action ->
  exists body,
    handle E req op = (enforce_call E req action ;;; body) /\
    emits (fun ev => negb (gate_call ev)) body.
Proof.
  intros Haction.
  destruct op; simplify_eq/=; (eexists; split; [reflexivity|]); emits_tac.
Qed.

(** X16. An enforced operation consults the policy gate exactly once: the
    call of the gate on the action of the operation is its first call, and
    none of the calls that follow is a call of the gate. *)
Theorem gate_is_consulted_once E req op action s :
  action_of op = Some action ->
  exists rest,
    log (handle E req op s).2 = log s ++ EvEnforce action :: rest /\
    Forall (fun ev => gate_call ev = false) rest.
Proof.
  intros Haction.
  destruct (enforced_operation_body E req op action Haction) as (body & -> & Hbody).
  run. destruct (policy_allows E action req).
  - destruct (Hbody {| registry := registry s;
                       log := log s ++ [EvEnforce action] |}) as (rest & Hrest & HP).
    exists rest. split.
    + rewrite Hrest. cbn [log]. by rewrite <- app_assoc.
    + eapply Forall_impl; [exact HP|]. intros ev Hev. by apply negb_true_iff in Hev.
  - exists []. by split.
Qed.

Lemma gate_is_consulted_once_witness :
  exists rest,
    log (handle Demo.env
           (Demo.admin_request
              [("identity_provider", VDict [("description", VStr "corporate IdP")])] [])
           (create_identity_provider "idp1") Demo.fresh).2
    = EvEnforce "identity:create_identity_provider" :: rest /\
    Forall (fun ev => gate_call ev = false) rest.
Proof.
  exact (gate_is_consulted_once Demo.env
           (Demo.admin_request
              [("identity_provider", VDict [("description", VStr "corporate IdP")])] [])
           (create_identity_provider "idp1")
           "identity:create_identity_provider" Demo.fresh eq_refl).
Defined.

Lemma operation_provider_calls E req op :
  emits (no_other_provider_call (provider_method op)) (handle E req op).
Proof. destruct op; simpl; emits_tac. Qed.

(** X17. Whatever the request and the state, an operation calls no method of
    the provider layer but its own: a get or a list never calls a create, an
    update or a delete, and the aggregations, the metadata operation and the
    authentication bridge do not call the provider layer at all. *)
Theorem operation_calls_own_provider_method E req op s :
  exists new,
    log (handle E req op s).2 = log s ++ new /\
    forall method args,
      EvFederation method args ∈ new -> provider_method op = Some method.
Proof.
  destruct (operation_provider_calls E req op s) as (new & Hnew & HP).
  exists new. split; [done|]. intros method args Hin.
  rewrite Forall_forall in HP. specialize (HP _ Hin). simpl in HP.
  by apply bool_decide_eq_true in HP.
Qed.

(** ** The replies of the operations *)

Lemma returns_ret {A} (Q : A -> Prop) a : Q a -> returns Q (ret a).
Proof. intros HQ s a' [= <-]. done. Qed.

Lemma returns_raise {A} (Q : A -> Prop) e : returns Q (raise e).
Proof. intros s a. discriminate. Qed.

Lemma returns_bind_with {A B} (Q' : A -> Prop) (Q : B -> Prop) (m : M A) k :
  returns Q' m -> (forall a, Q' a -> returns Q (k a)) -> returns Q (bind m k).
Proof.
  intros Hm Hk s b. unfold bind. specialize (Hm s).
  destruct (m s) as [[e|a] s1]; simpl in *; [done|].
  intros Hb. by apply (Hk a (Hm a eq_refl) s1).
Qed.

Lemma returns_bind {A B} (Q : B -> Prop) (m : M A) k :
  (forall a, returns Q (k a)) -> returns Q (bind m k).
Proof.
  intros Hk. apply (returns_bind_with (fun _ => True)); [done|auto].
Qed.

Lemma returns_wrap_member E cls ref :
  returns (fun m => exists member, m = [(member_key cls, VDict member)])
    (wrap_member E cls ref).
Proof.
  unfold wrap_member. apply returns_bind. intros member.
  apply returns_ret. eauto.
Qed.

Ltac returns_step :=
  match goal with
  | |- forall _, _ => intro
  | |- returns _ (bind (wrap_member _ _ _) _) =>
      eapply returns_bind_with; [apply returns_wrap_member|intros ? [? ->]]
  | |- returns _ (bind _ _) => apply returns_bind
  | |- returns _ (raise _) => apply returns_raise
  | |- returns _ (ret _) =>
      apply returns_ret; simpl; unfold member_body; by eauto 10
  | |- returns _ (match ?x with _ => _ end) => destruct x
  end.

(** X18. An operation that does not raise replies in the form its handler
    is written to return: a get or an update the member under the member key
    of its resource, a create the same with status 201, a delete an empty
    body with status 204, a list or an aggregation a collection, the metadata
    operation a response with status 200, and the authentication bridge a
    response. *)
Theorem operation_reply_form E req op s r :
  (handle E req op s).1 = inr r -> reply_form op r.
Proof.
  revert s r. change (returns (reply_form op) (handle E req op)).
  destruct op; simpl;
    unfold IdentityProvidersResource._get_idp,
      IdentityProvidersResource._list_idps, IdentityProvidersResource.put,
      IdentityProvidersResource.patch, IdentityProvidersResource.delete,
      IdentityProvidersProtocolsResource._get_protocol,
      IdentityProvidersProtocolsResource._list_protocols,
      IdentityProvidersProtocolsResource.put,
      IdentityProvidersProtocolsResource.patch,
      IdentityProvidersProtocolsResource.delete,
      MappingResource._get_mapping, MappingResource._list_mappings,
      MappingResource.put, MappingResource.patch, MappingResource.delete,
      ServiceProvidersResource._get_service_provider,
      ServiceProvidersResource._list_service_providers,
      ServiceProvidersResource.put, ServiceProvidersResource.patch,
      ServiceProvidersResource.delete,
      OSFederationProjectResource.get, OSFederationDomainResource.get,
      SAML2MetadataResource.get, OSFederationAuthResource.get,
      OSFederationAuthResource.post, OSFederationAuthResource._auth;
    cbv zeta; repeat returns_step.
Qed.

Lemma operation_reply_form_witness :
  exists v,
    (handle Demo.env
       (Demo.admin_request
          [("mapping", VDict [("rules", VList [VDict []])])] [])
       (create_mapping "m1") Demo.fresh).1
    = inr (BodyStatus v 201) /\
    member_body "mapping" v.
Proof.
  destruct (operation_reply_form Demo.env
              (Demo.admin_request
                 [("mapping", VDict [("rules", VList [VDict []])])] [])
              (create_mapping "m1") Demo.fresh
              (BodyStatus
                 (VDict [("mapping",
                          VDict [("rules", VList [VDict []]); ("id", VStr "m1");
                                 ("links",
                                  VDict [("self", VStr "http://keystone/v3/OS-FEDERATION/mappings")])])])
                 201) eq_refl) as (v & Hv & Hmember).
  exists v. split; [by rewrite <- Hv|exact Hmember].
Defined.

(** ** The validators an operation runs *)

Lemma operation_validation_calls E req op :
  emits (validation_call op) (handle E req op).
Proof. destruct op; simpl; emits_tac. Qed.

(** X19. An operation runs no other validation than its own: the schema
    validator is called only by the create and update of identity providers,
    protocols and service providers, each with the schema of the operation,
    and the structural validator of mappings only by the create and update
    of mappings, which call no schema validator. *)
Theorem operation_runs_own_validation E req op s :
  exists new,
    log (handle E req op s).2 = log s ++ new /\
    (forall sch doc,
       EvValidate sch doc ∈ new -> fst <$> validated_document op = Some sch) /\
    (forall doc,
       EvValidateMapping doc ∈ new ->
       exists mapping_id, op = create_mapping mapping_id \/ op = update_mapping mapping_id).
Proof.
  destruct (operation_validation_calls E req op s) as (new & Hnew & HP).
  exists new. split; [done|]. rewrite Forall_forall in HP. split.
  - intros sch doc Hin. specialize (HP _ Hin). simpl in HP.
    by apply bool_decide_eq_true in HP.
  - intros doc Hin. specialize (HP _ Hin). simpl in HP.
    destruct op; try done; eauto.
Qed.

(** ** Headers present on both sides of the bridge *)



